(** * JeanTrail Colab scraper template: the delivery and accounting pipeline

    A shallow embedding of [docs/COLAB_SCRAPER_TEMPLATE.py].  The script
    iterates the configured subcategories, asks two adapters for product
    dictionaries, posts every product to a webhook and counts the outcomes.

    Everything outside the script is a parameter: the clock
    ([datetime.utcnow]), the HTTP client ([requests.post]) and the two
    adapters.  Python statements that touch the outside are written in a
    small state-and-exception monad; a raised exception keeps the side
    effects performed before it, as in Python.

    Conventions of the model:
    - the module-level constants are the fields of a [Config] record that
      the functions receive;
    - a product is a [Dict], as the annotations of the script say;
    - an exception is an instance of Python's [Exception], the class the
      [except] clause of [send_to_webhook] names; interpreter signals such
      as [KeyboardInterrupt] are not modelled;
    - [print] appends to the standard output; a printed line is kept as
      the call site and the values interpolated into it.  The one [print]
      that interpolates scraped text, the success line of
      [send_to_webhook], may raise when the standard output cannot encode
      the product's name, and that exception is caught by the [try] it
      sits in.  Every other [print] writes configuration strings, numbers
      and exception texts and is taken to succeed: none of them is inside
      a [try], so a failing one would end the run. *)

From Stdlib Require Import ZArith List String Ascii Bool Lia.
From Stdlib Require Import DecimalString DecimalNat.
Import ListNotations.

Local Open Scope string_scope.
Local Open Scope list_scope.

(** ** Python values *)

(** The values a product dictionary can hold.  A float is kept as mantissa
    and binary exponent; the pipeline never looks inside one. *)
#[warnings="-register-all"]
Inductive pyval : Type :=
| PNone
| PBool (b : bool)
| PInt (z : Z)
| PFloat (mantissa exponent : Z)
| PStr (s : string)
| PList (items : list pyval)
| PDict (entries : list (string * pyval)).

(** [Dict]: string keys in insertion order. *)
Definition Dict : Type := list (string * pyval).

Fixpoint dict_lookup (key : string) (d : Dict) : option pyval :=
  match d with
  | [] => None
  | (k, v) :: rest => if String.eqb k key then Some v else dict_lookup key rest
  end.

(** [d.get(key)]: the value, or [None] when the key is absent. *)
Definition dict_get (key : string) (d : Dict) : pyval :=
  match dict_lookup key d with
  | Some v => v
  | None => PNone
  end.

(** [d[key] = v]: overwrite in place, or append a new key. *)
Fixpoint dict_setitem (key : string) (v : pyval) (d : Dict) : Dict :=
  match d with
  | [] => [(key, v)]
  | (k, v0) :: rest =>
      if String.eqb k key then (k, v) :: rest
      else (k, v0) :: dict_setitem key v rest
  end.

(** A dictionary display [{k1: v1, ..., kn: vn}] inserts left to right. *)
Definition dict_display (items : list (string * pyval)) : Dict :=
  fold_left (fun d kv => dict_setitem (fst kv) (snd kv) d) items [].

Definition dict_keys (d : Dict) : list string := map fst d.

(** ** The clock *)

Record datetime : Type := mk_datetime {
  year : nat; month : nat; day : nat;
  hour : nat; minute : nat; second : nat; microsecond : nat
}.

Definition decimal (n : nat) : string := NilZero.string_of_uint (Nat.to_uint n).

Fixpoint zeros (n : nat) : string :=
  match n with
  | O => EmptyString
  | S k => String "0"%char (zeros k)
  end.

(** [%0<width>d] *)
Definition zfill (width n : nat) : string :=
  let s := decimal n in
  String.append (zeros (width - String.length s)) s.

(** [datetime.isoformat()] of a naive datetime:
    [YYYY-MM-DDTHH:MM:SS], followed by [.ffffff] when the microsecond
    field is not zero. *)
Definition isoformat (t : datetime) : string :=
  String.concat "" [
    zfill 4 (year t); "-"; zfill 2 (month t); "-"; zfill 2 (day t); "T";
    zfill 2 (hour t); ":"; zfill 2 (minute t); ":"; zfill 2 (second t);
    match microsecond t with
    | O => ""
    | us => String.append "." (zfill 6 us)
    end ].

(** Reading an ISO-8601 timestamp back: the fields between the
    separators [-], [-], [T], [:], [:] and, when there is one, the
    fraction after [.]. *)
Fixpoint split_at (c : ascii) (s : string) : option (string * string) :=
  match s with
  | EmptyString => None
  | String a rest =>
      if Ascii.eqb a c then Some (EmptyString, rest)
      else match split_at c rest with
           | Some (l, r) => Some (String a l, r)
           | None => None
           end
  end.

Definition read_decimal (s : string) : option nat :=
  match s with
  | EmptyString => None
  | _ => option_map Nat.of_uint (NilEmpty.uint_of_string s)
  end.

Definition parse_isoformat (s : string) : option datetime :=
  match split_at "-" s with
  | Some (y, s1) =>
  match split_at "-" s1 with
  | Some (mo, s2) =>
  match split_at "T" s2 with
  | Some (d, s3) =>
  match split_at ":" s3 with
  | Some (h, s4) =>
  match split_at ":" s4 with
  | Some (mi, s5) =>
      let (sec, fraction) :=
        match split_at "." s5 with
        | Some (sec, us) => (sec, read_decimal us)
        | None => (s5, Some 0)
        end in
      match read_decimal y, read_decimal mo, read_decimal d,
            read_decimal h, read_decimal mi, read_decimal sec, fraction with
      | Some y, Some mo, Some d, Some h, Some mi, Some sec, Some us =>
          Some {| year := y; month := mo; day := d; hour := h;
                  minute := mi; second := sec; microsecond := us |}
      | _, _, _, _, _, _, _ => None
      end
  | None => None end
  | None => None end
  | None => None end
  | None => None end
  | None => None end.

(** The digit characters. *)
Definition is_digit (c : ascii) : bool :=
  match uint_of_char c (Some Decimal.Nil) with
  | Some _ => true
  | None => false
  end.

Fixpoint all_digits (s : string) : bool :=
  match s with
  | EmptyString => true
  | String a rest => is_digit a && all_digits rest
  end.

(** A decimal field: exactly [width] characters, all of them digits,
    that read as [n].  There is one such text for a given width and
    number. *)
Definition field (width n : nat) (s : string) : Prop :=
  String.length s = width /\ all_digits s = true /\ read_decimal s = Some n.

(** The field ranges of a [datetime]. *)
Definition in_range (t : datetime) : Prop :=
  1 <= year t < 10 ^ 4 /\ 1 <= month t <= 12 /\ 1 <= day t <= 31 /\
  hour t <= 23 /\ minute t <= 59 /\ second t <= 59 /\
  microsecond t < 10 ^ 6.

(** ** Exceptions, requests, log lines *)

(** An instance of Python's [Exception]: its class name and [str(e)]. *)
Record exception : Type := mk_exception {
  exc_class : string;
  exc_str : string
}.

Inductive Result (A : Type) : Type :=
| Ok (a : A)
| Raise (e : exception).
Arguments Ok {A} a.
Arguments Raise {A} e.

(** The arguments of one [requests.post(url, json=..., timeout=...)]. *)
Record request : Type := mk_request {
  url : string;
  json : pyval;
  timeout : Z
}.

Record response : Type := mk_response { status_code : Z }.

(** One constructor per [print] of the script, holding the interpolated
    values. *)
Inductive line : Type :=
| Log_scraping_alibaba (subcategory : string)
| Log_scraping_1688 (subcategory : string)
| Log_success (name : pyval)
| Log_webhook_returned (code : Z)
| Log_failed_to_send (message : string)
| Log_start (account : string)
| Log_subcategories (joined : string)
| Log_processing (subcategory : string)
| Log_complete
| Log_stats (sent failed : Z).

(** ** Configuration *)

Record Config : Type := mk_config {
  WEBHOOK_URL : string;
  GMAIL_ACCOUNT : string;
  SUBCATEGORIES : list string;
  RATE_LIMIT_PER_MINUTE : Z;
  SCRAPE_TIMEOUT : Z
}.

(** The values the template ships with. *)
Definition template_config : Config := {|
  WEBHOOK_URL := "http://localhost:5678/webhook/jeantrail-incoming-product";
  GMAIL_ACCOUNT := "jeantrail1001@gmail.com";
  SUBCATEGORIES := ["Bermuda Shorts"; "Cravats"; "Vests"];
  RATE_LIMIT_PER_MINUTE := 10;
  SCRAPE_TIMEOUT := 30
|}.

Definition with_rate_limit (r : Z) (cfg : Config) : Config := {|
  WEBHOOK_URL := WEBHOOK_URL cfg;
  GMAIL_ACCOUNT := GMAIL_ACCOUNT cfg;
  SUBCATEGORIES := SUBCATEGORIES cfg;
  RATE_LIMIT_PER_MINUTE := r;
  SCRAPE_TIMEOUT := SCRAPE_TIMEOUT cfg
|}.

(** ** Program state and the monad *)

Section Pipeline.

(** The outside world: any type, advanced by the clock and by the HTTP
    client.  Either may raise. *)
Context {W : Type}.
Variable utcnow : W -> Result datetime * W.
Variable requests_post : request -> W -> Result response * W.

(** Whether the standard output refuses a text taken from a product, and
    with which exception ([UnicodeEncodeError] on a name it cannot
    encode). *)
Variable unencodable : pyval -> option exception.

Record State : Type := mk_state {
  world : W;
  stdout : list line;          (* everything printed so far *)
  post_calls : list request    (* every call of requests.post so far *)
}.

Definition M (A : Type) : Type := State -> Result A * State.

Definition ret {A} (a : A) : M A := fun st => (Ok a, st).

Definition bind {A B} (m : M A) (k : A -> M B) : M B :=
  fun st =>
    match m st with
    | (Ok a, st') => k a st'
    | (Raise e, st') => (Raise e, st')
    end.

(** [try: body except Exception as e: handler(e)] *)
Definition try_except {A} (body : M A) (handler : exception -> M A) : M A :=
  fun st =>
    match body st with
    | (Ok a, st') => (Ok a, st')
    | (Raise e, st') => handler e st'
    end.

Notation "x <- m ;; k" := (bind m (fun x => k))
  (at level 61, m at next level, right associativity).
Notation "m ;; k" := (bind m (fun _ => k))
  (at level 61, right associativity).

Definition print (l : line) : M unit :=
  fun st => (Ok tt, {| world := world st;
                       stdout := stdout st ++ [l];
                       post_calls := post_calls st |}).

(** What printing a value taken from a product raises, if anything.
    [None], booleans and numbers print in ASCII; a text, alone or inside
    a list or a dictionary, is up to the standard output. *)
Definition print_failure (v : pyval) : option exception :=
  match v with
  | PNone | PBool _ | PInt _ | PFloat _ _ => None
  | PStr _ | PList _ | PDict _ => unencodable v
  end.

(** Line 96: the only [print] that interpolates scraped text. *)
Definition print_success (name : pyval) : M unit :=
  fun st =>
    match print_failure name with
    | Some e => (Raise e, st)
    | None => print (Log_success name) st
    end.

(** [datetime.utcnow()] *)
Definition datetime_utcnow : M datetime :=
  fun st =>
    let (r, w) := utcnow (world st) in
    (r, {| world := w; stdout := stdout st; post_calls := post_calls st |}).

(** [requests.post(url, json=payload, timeout=t)] *)
Definition post (u : string) (payload : pyval) (t : Z) : M response :=
  fun st =>
    let rq := {| url := u; json := payload; timeout := t |} in
    let (r, w) := requests_post rq (world st) in
    (r, {| world := w; stdout := stdout st;
           post_calls := post_calls st ++ [rq] |}).

(** ** Scraper functions *)

(** The template's adapters: they announce themselves and return the
    empty list. *)
Definition scrape_alibaba_products (subcategory : string) : M (list Dict) :=
  let products := [] in
  print (Log_scraping_alibaba subcategory) ;;
  ret products.

Definition scrape_1688_products (subcategory : string) : M (list Dict) :=
  let products := [] in
  print (Log_scraping_1688 subcategory) ;;
  ret products.

(** ** Delivery *)

(** The dictionary built at lines 82-87, for a given timestamp string. *)
Definition payload (cfg : Config) (timestamp : string) (product_data : Dict)
  : Dict :=
  dict_display [
    ("source", PStr "colab");
    ("gmail_account", PStr (GMAIL_ACCOUNT cfg));
    ("timestamp", PStr timestamp);
    ("product", PDict product_data) ].

Definition send_to_webhook (cfg : Config) (product_data : Dict) : M bool :=
  try_except
    (now <- datetime_utcnow ;;
     let payload := payload cfg (isoformat now) product_data in
     response <- post (WEBHOOK_URL cfg) (PDict payload) (SCRAPE_TIMEOUT cfg) ;;
     if (status_code response =? 200)%Z then
       print_success (dict_get "name" product_data) ;;
       ret true
     else
       print (Log_webhook_returned (status_code response)) ;;
       ret false)
    (fun e =>
       print (Log_failed_to_send (exc_str e)) ;;
       ret false).

(** ** Main loop *)

(** Whatever the two adapter names are bound to when [main] runs.  The
    template binds them to the placeholders above; a filled-in copy binds
    them to real scrapers, which may print, use the network and raise. *)
Variable scrape_alibaba : string -> M (list Dict).
Variable scrape_1688 : string -> M (list Dict).

(** Lines 120-123: both sources, then the concatenation. *)
Definition all_products (subcategory : string) : M (list Dict) :=
  alibaba_products <- scrape_alibaba subcategory ;;
  products_1688 <- scrape_1688 subcategory ;;
  ret (alibaba_products ++ products_1688).

(** Lines 127-130, on the pair [(total_sent, total_failed)]. *)
Definition tally (success : bool) (totals : Z * Z) : Z * Z :=
  let (total_sent, total_failed) := totals in
  if success then ((total_sent + 1)%Z, total_failed)
  else (total_sent, (total_failed + 1)%Z).

(** [for product in all_products: ...] *)
Fixpoint for_product (cfg : Config) (products : list Dict) (totals : Z * Z)
  : M (Z * Z) :=
  match products with
  | [] => ret totals
  | product :: rest =>
      success <- send_to_webhook cfg product ;;
      for_product cfg rest (tally success totals)
  end.

(** [for subcategory in SUBCATEGORIES: ...] *)
Fixpoint for_subcategory (cfg : Config) (subcategories : list string)
  (totals : Z * Z) : M (Z * Z) :=
  match subcategories with
  | [] => ret totals
  | subcategory :: rest =>
      print (Log_processing subcategory) ;;
      products <- all_products subcategory ;;
      totals' <- for_product cfg products totals ;;
      for_subcategory cfg rest totals'
  end.

Definition main (cfg : Config) : M unit :=
  print (Log_start (GMAIL_ACCOUNT cfg)) ;;
  print (Log_subcategories (String.concat ", " (SUBCATEGORIES cfg))) ;;
  totals <- for_subcategory cfg (SUBCATEGORIES cfg) (0%Z, 0%Z) ;;
  print Log_complete ;;
  print (Log_stats (fst totals) (snd totals)).

(** The summary a finished run leaves as its last line. *)
Definition final_summary (st : State) : option (Z * Z) :=
  match rev (stdout st) with
  | Log_stats sent failed :: _ => Some (sent, failed)
  | _ => None
  end.

(** ** The run, one step at a time

    The same control flow as [main], cut at every loop iteration, so that
    the counters can be inspected between any two deliveries.  [Running]
    holds what the two [for] loops still have to visit. *)

Inductive control : Type :=
| Idle
| Running (subcategories : list string) (products : list Dict)
| Complete
| Crashed (e : exception).

Record config : Type := mk_config_state {
  ctl : control;
  total_sent : Z;
  total_failed : Z;
  io : State
}.

(** What a step did. *)
Inductive label : Type :=
| Started
| Scraped (subcategory : string) (products : list Dict)
| Adapter_raised (subcategory : string) (e : exception)
| Sent (product : Dict) (success : bool)
| Sink_raised (product : Dict) (e : exception)
| Finished (sent failed : Z).

Definition start (st : State) : config :=
  {| ctl := Idle; total_sent := 0; total_failed := 0; io := st |}.

Definition step (cfg : Config) (c : config) : option (label * config) :=
  match ctl c with
  | Idle =>
      let st :=
        snd ((print (Log_start (GMAIL_ACCOUNT cfg)) ;;
              print (Log_subcategories
                       (String.concat ", " (SUBCATEGORIES cfg)))) (io c)) in
      Some (Started,
            {| ctl := Running (SUBCATEGORIES cfg) [];
               total_sent := 0; total_failed := 0; io := st |})
  | Running subcategories (product :: rest) =>
      match send_to_webhook cfg product (io c) with
      | (Ok success, st) =>
          let (sent, failed) :=
            tally success (total_sent c, total_failed c) in
          Some (Sent product success,
                {| ctl := Running subcategories rest;
                   total_sent := sent; total_failed := failed; io := st |})
      | (Raise e, st) =>
          Some (Sink_raised product e,
                {| ctl := Crashed e; total_sent := total_sent c;
                   total_failed := total_failed c; io := st |})
      end
  | Running (subcategory :: rest) [] =>
      match (print (Log_processing subcategory) ;;
             all_products subcategory) (io c) with
      | (Ok products, st) =>
          Some (Scraped subcategory products,
                {| ctl := Running rest products;
                   total_sent := total_sent c;
                   total_failed := total_failed c; io := st |})
      | (Raise e, st) =>
          Some (Adapter_raised subcategory e,
                {| ctl := Crashed e; total_sent := total_sent c;
                   total_failed := total_failed c; io := st |})
      end
  | Running [] [] =>
      let st :=
        snd ((print Log_complete ;;
              print (Log_stats (total_sent c) (total_failed c))) (io c)) in
      Some (Finished (total_sent c) (total_failed c),
            {| ctl := Complete; total_sent := total_sent c;
               total_failed := total_failed c; io := st |})
  | Complete => None
  | Crashed _ => None
  end.

(** At most [n] steps, with the labels in the order they happened. *)
Fixpoint exec (cfg : Config) (n : nat) (c : config) : list label * config :=
  match n with
  | O => ([], c)
  | S k =>
      match step cfg c with
      | None => ([], c)
      | Some (l, c') =>
          let (tr, c'') := exec cfg k c' in (l :: tr, c'')
      end
  end.

(** The steps a run can take, as a relation.  There is no rule for an
    exception leaving [send_to_webhook]: [step] provides for one, and
    [step_transition] below shows it is never taken. *)
Inductive transition (cfg : Config) : config -> label -> config -> Prop :=
| T_started c :
    ctl c = Idle ->
    transition cfg c Started
      {| ctl := Running (SUBCATEGORIES cfg) [];
         total_sent := 0; total_failed := 0;
         io := {| world := world (io c);
                  stdout := (stdout (io c)
                             ++ [Log_start (GMAIL_ACCOUNT cfg)])
                             ++ [Log_subcategories
                                   (String.concat ", " (SUBCATEGORIES cfg))];
                  post_calls := post_calls (io c) |} |}
| T_scraped c subcategory rest products st :
    ctl c = Running (subcategory :: rest) [] ->
    (print (Log_processing subcategory) ;; all_products subcategory) (io c)
      = (Ok products, st) ->
    transition cfg c (Scraped subcategory products)
      {| ctl := Running rest products;
         total_sent := total_sent c; total_failed := total_failed c;
         io := st |}
| T_adapter_raised c subcategory rest e st :
    ctl c = Running (subcategory :: rest) [] ->
    (print (Log_processing subcategory) ;; all_products subcategory) (io c)
      = (Raise e, st) ->
    transition cfg c (Adapter_raised subcategory e)
      {| ctl := Crashed e;
         total_sent := total_sent c; total_failed := total_failed c;
         io := st |}
| T_sent c subcategories product rest success st :
    ctl c = Running subcategories (product :: rest) ->
    send_to_webhook cfg product (io c) = (Ok success, st) ->
    transition cfg c (Sent product success)
      {| ctl := Running subcategories rest;
         total_sent :=
           if success then (total_sent c + 1)%Z else total_sent c;
         total_failed :=
           if success then total_failed c else (total_failed c + 1)%Z;
         io := st |}
| T_finished c :
    ctl c = Running [] [] ->
    transition cfg c (Finished (total_sent c) (total_failed c))
      {| ctl := Complete;
         total_sent := total_sent c; total_failed := total_failed c;
         io := {| world := world (io c);
                  stdout := (stdout (io c) ++ [Log_complete])
                             ++ [Log_stats (total_sent c) (total_failed c)];
                  post_calls := post_calls (io c) |} |}.

(** What is left of the inner loop. *)
Definition pending (c : config) : list Dict :=
  match ctl c with
  | Running _ products => products
  | _ => []
  end.

Definition halted (c : config) : bool :=
  match ctl c with
  | Complete | Crashed _ => true
  | _ => false
  end.

(** Projections of a trace. *)

(** The products handed to [send_to_webhook], in call order. *)
Definition sent_products (tr : list label) : list Dict :=
  flat_map (fun l => match l with
                     | Sent p _ | Sink_raised p _ => [p]
                     | _ => []
                     end) tr.

(** The booleans [send_to_webhook] returned, in call order. *)
Definition sink_results (tr : list label) : list bool :=
  flat_map (fun l => match l with Sent _ b => [b] | _ => [] end) tr.

Definition sink_invocations (tr : list label) : nat :=
  List.length (sent_products tr).

(** The subcategories scraped, each with the list its inner loop got. *)
Definition visits (tr : list label) : list (string * list Dict) :=
  flat_map (fun l => match l with Scraped s ps => [(s, ps)] | _ => [] end) tr.

(** Every record the adapters produced, in discovery order. *)
Definition discovered (tr : list label) : list Dict :=
  flat_map snd (visits tr).

Definition successes (results : list bool) : nat :=
  count_occ Bool.bool_dec results true.

Definition failures (results : list bool) : nat :=
  count_occ Bool.bool_dec results false.

(** A trace without its outcomes: what was scraped and what was handed to
    the sink, in order. *)
Inductive visit : Type :=
| Visit_scrape (subcategory : string) (products : list Dict)
| Visit_send (product : Dict).

Definition outline (tr : list label) : list visit :=
  flat_map (fun l => match l with
                     | Scraped s ps => [Visit_scrape s ps]
                     | Sent p _ | Sink_raised p _ => [Visit_send p]
                     | _ => []
                     end) tr.

(** The outline of a run that scrapes each subcategory and then hands
    each of its products to the sink once, in list order. *)
Definition planned (vs : list (string * list Dict)) : list visit :=
  flat_map (fun v => Visit_scrape (fst v) (snd v) :: map Visit_send (snd v)) vs.

End Pipeline.

Arguments State W : clear implicits.
Arguments M W A : clear implicits.
Arguments config W : clear implicits.

(** ** Records as shared objects

    In Python a product is a dictionary object: the adapters return
    references to it, [send_to_webhook] puts the reference under
    [product] (line 86), and whoever holds a reference could change the
    record for everybody else.  The sink and the loops are therefore
    written once more on references into a store of records, next to the
    outside world.  The clock and the HTTP client work on the outside
    world only; an adapter may allocate and change records as it likes. *)

Section Shared_records.

Context {W : Type}.
Variable utcnow : W -> Result datetime * W.
Variable requests_post : request -> W -> Result response * W.
Variable unencodable : pyval -> option exception.

Notation "x <- m ;; k" := (bind m (fun x => k))
  (at level 61, m at next level, right associativity).
Notation "m ;; k" := (bind m (fun _ => k))
  (at level 61, right associativity).

(** The records, by address. *)
Definition Store : Type := list Dict.

Definition store_of (st : State (W * Store)) : Store := snd (world st).

Definition utcnow_beside (ws : W * Store) : Result datetime * (W * Store) :=
  let (r, w) := utcnow (fst ws) in (r, (w, snd ws)).

Definition requests_post_beside (rq : request) (ws : W * Store)
  : Result response * (W * Store) :=
  let (r, w) := requests_post rq (fst ws) in (r, (w, snd ws)).

(** Following a reference. *)
Definition deref (r : nat) : M (W * Store) Dict :=
  fun st => (Ok (nth r (store_of st) []), st).

(** [send_to_webhook] on a reference: the payload holds the reference,
    [requests.post] serialises the record it points to when it is
    called, and the success line looks the name up afterwards. *)
Definition send_to_webhook_ref (cfg : Config) (product_data : nat)
  : M (W * Store) bool :=
  try_except
    (now <- datetime_utcnow utcnow_beside ;;
     let payload := fun product => payload cfg (isoformat now) product in
     body <- deref product_data ;;
     response <- post requests_post_beside
                   (WEBHOOK_URL cfg) (PDict (payload body))
                   (SCRAPE_TIMEOUT cfg) ;;
     if (status_code response =? 200)%Z then
       record <- deref product_data ;;
       print_success unencodable (dict_get "name" record) ;;
       ret true
     else
       print (Log_webhook_returned (status_code response)) ;;
       ret false)
    (fun e =>
       print (Log_failed_to_send (exc_str e)) ;;
       ret false).

Fixpoint for_product_ref (cfg : Config) (products : list nat)
  (totals : Z * Z) : M (W * Store) (Z * Z) :=
  match products with
  | [] => ret totals
  | product :: rest =>
      success <- send_to_webhook_ref cfg product ;;
      for_product_ref cfg rest
        (if success then ((fst totals + 1)%Z, snd totals)
         else (fst totals, (snd totals + 1)%Z))
  end.

Variable scrape_alibaba_ref : string -> M (W * Store) (list nat).
Variable scrape_1688_ref : string -> M (W * Store) (list nat).

Fixpoint for_subcategory_ref (cfg : Config) (subcategories : list string)
  (totals : Z * Z) : M (W * Store) (Z * Z) :=
  match subcategories with
  | [] => ret totals
  | subcategory :: rest =>
      print (Log_processing subcategory) ;;
      alibaba_products <- scrape_alibaba_ref subcategory ;;
      products_1688 <- scrape_1688_ref subcategory ;;
      totals' <- for_product_ref cfg (alibaba_products ++ products_1688)
                   totals ;;
      for_subcategory_ref cfg rest totals'
  end.

Definition main_ref (cfg : Config) : M (W * Store) unit :=
  print (Log_start (GMAIL_ACCOUNT cfg)) ;;
  print (Log_subcategories (String.concat ", " (SUBCATEGORIES cfg))) ;;
  totals <- for_subcategory_ref cfg (SUBCATEGORIES cfg) (0%Z, 0%Z) ;;
  print Log_complete ;;
  print (Log_stats (fst totals) (snd totals)).

(** An adapter keeps the record at [l]: whatever else it does to the
    store, a record found at [l] before the call is there after it. *)
Definition keeps (adapter : string -> M (W * Store) (list nat))
  (l : nat) (d : Dict) : Prop :=
  forall s st,
    nth_error (store_of st) l = Some d ->
    nth_error (store_of (snd (adapter s st))) l = Some d.

End Shared_records.

(** ** A scripted world

    A small outside world to run the program in: the clock stands still,
    the endpoint answers 200 and 503 in turn, and the adapters know three
    products. *)
Module Demo.

Definition noon : datetime :=
  {| year := 2024; month := 3; day := 5;
     hour := 12; minute := 0; second := 9; microsecond := 0 |}.

(** The world counts the requests answered so far. *)
Definition clock (w : nat) : Result datetime * nat := (Ok noon, w).

Definition endpoint (rq : request) (w : nat) : Result response * nat :=
  (Ok {| status_code := if Nat.even w then 200 else 503 |}, S w).

Definition accepting (rq : request) (w : nat) : Result response * nat :=
  (Ok {| status_code := 200 |}, S w).

Definition unavailable (rq : request) (w : nat) : Result response * nat :=
  (Ok {| status_code := 503 |}, S w).

Definition refusing (rq : request) (w : nat) : Result response * nat :=
  (Raise {| exc_class := "ConnectionError";
            exc_str := "connection refused" |}, S w).

(** A standard output that takes every text, and one that takes ASCII
    only. *)
Definition utf8 (v : pyval) : option exception := None.

Definition not_ascii (s : string) : bool :=
  existsb (fun c => Nat.leb 128 (nat_of_ascii c)) (list_ascii_of_string s).

Definition ascii_only (v : pyval) : option exception :=
  match v with
  | PStr s =>
      if not_ascii s
      then Some {| exc_class := "UnicodeEncodeError";
                   exc_str := "'ascii' codec can't encode character" |}
      else None
  | _ => None
  end.

(** A clock that cannot be read. *)
Definition stopped (w : nat) : Result datetime * nat :=
  (Raise {| exc_class := "DeprecationWarning";
            exc_str := "datetime.utcnow() is deprecated" |}, w).

Definition vest : Dict := [("name", PStr "Wool vest"); ("price", PInt 25)].
Definition waistcoat : Dict := [("name", PStr "Waistcoat")].
Definition gilet : Dict := [("price", PFloat 19 (-1)); ("images", PList [])].

(** A product whose name has a letter outside ASCII (UTF-8 bytes 195,
    169). *)
Definition beret : Dict :=
  [("name", PStr (String.append "B"
                    (String (ascii_of_nat 195)
                       (String (ascii_of_nat 169) "ret"))))].

Definition alibaba (subcategory : string) : M nat (list Dict) :=
  if String.eqb subcategory "Vests" then ret [vest; waistcoat] else ret [].

Definition blocked : exception :=
  {| exc_class := "RuntimeError"; exc_str := "blocked by the site" |}.

Definition s1688 (subcategory : string) : M nat (list Dict) :=
  if String.eqb subcategory "Vests" then ret [gilet]
  else if String.eqb subcategory "Cravats" then fun st => (Raise blocked, st)
  else ret [].

Definition cfg : Config := {|
  WEBHOOK_URL := "http://localhost:5678/webhook/jeantrail-incoming-product";
  GMAIL_ACCOUNT := "jeantrail1001@gmail.com";
  SUBCATEGORIES := ["Bermuda Shorts"; "Vests"];
  RATE_LIMIT_PER_MINUTE := 10;
  SCRAPE_TIMEOUT := 30
|}.

Definition only (subcategory : string) : Config := {|
  WEBHOOK_URL := "http://localhost:5678/webhook/jeantrail-incoming-product";
  GMAIL_ACCOUNT := "jeantrail1001@gmail.com";
  SUBCATEGORIES := [subcategory];
  RATE_LIMIT_PER_MINUTE := 10;
  SCRAPE_TIMEOUT := 30
|}.

Definition empty_cfg : Config := {|
  WEBHOOK_URL := WEBHOOK_URL cfg;
  GMAIL_ACCOUNT := GMAIL_ACCOUNT cfg;
  SUBCATEGORIES := [];
  RATE_LIMIT_PER_MINUTE := 10;
  SCRAPE_TIMEOUT := 30
|}.

Definition fresh : State nat :=
  {| world := 0; stdout := []; post_calls := [] |}.

Definition run (n : nat) : list label * config nat :=
  exec clock endpoint utf8 alibaba s1688 cfg n (start fresh).

(** The seven steps of the run on [cfg]. *)
Definition trace : list label :=
  [ Started;
    Scraped "Bermuda Shorts" [];
    Scraped "Vests" [vest; waistcoat; gilet];
    Sent vest true;
    Sent waistcoat false;
    Sent gilet true;
    Finished 2 1 ].

(** Where the run on [template_config] stops: the 1688 adapter raises on
    the second subcategory. *)
Definition before_cravats : State nat :=
  {| world := 0;
     stdout := [ Log_start "jeantrail1001@gmail.com";
                 Log_subcategories "Bermuda Shorts, Cravats, Vests";
                 Log_processing "Bermuda Shorts" ];
     post_calls := [] |}.

Definition at_cravats : State nat :=
  {| world := 0;
     stdout := stdout before_cravats ++ [Log_processing "Cravats"];
     post_calls := [] |}.

(** A store with two records, an adapter that stores a third one and
    returns its address, and one that returns the address of the first. *)
Definition shelf : Store := [vest; waistcoat].

Definition stocked : State (nat * Store) :=
  {| world := (0, shelf); stdout := []; post_calls := [] |}.

Definition alibaba_ref (subcategory : string) : M (nat * Store) (list nat) :=
  fun st =>
    (Ok [List.length (store_of st)],
     {| world := (fst (world st), store_of st ++ [gilet]);
        stdout := stdout st; post_calls := post_calls st |}).

Definition s1688_ref (subcategory : string) : M (nat * Store) (list nat) :=
  fun st => (Ok [0], st).

End Demo.

(** ** Reading the log and the requests *)

(** The three lines [send_to_webhook] can print, with the result each one
    goes with; [None] for every other line. *)
Definition delivery_line (l : line) : option bool :=
  match l with
  | Log_success _ => Some true
  | Log_webhook_returned _ | Log_failed_to_send _ => Some false
  | _ => None
  end.

(** What a request carries under the key [product]. *)
Definition body_product (rq : request) : option pyval :=
  match json rq with
  | PDict body => dict_lookup "product" body
  | _ => None
  end.

(** [l1] is [l2] with some elements left out: the same order, and no
    element used more often than it occurs. *)
Inductive subsequence {A : Type} : list A -> list A -> Prop :=
| Sub_nil : subsequence [] []
| Sub_skip x l1 l2 : subsequence l1 l2 -> subsequence l1 (x :: l2)
| Sub_take x l1 l2 : subsequence l1 l2 -> subsequence (x :: l1) (x :: l2).

(** What the template's own adapters print for a list of subcategories,
    together with the controller's line for each. *)
Definition placeholder_log (subcategories : list string) : list line :=
  flat_map (fun s => [ Log_processing s;
                       Log_scraping_alibaba s;
                       Log_scraping_1688 s ]) subcategories.

(** * Properties *)

(** ** The timestamp *)

Lemma to_uint_not_nil (n : nat) : Nat.to_uint n <> Decimal.Nil.
Proof.
  intros H. pose proof (DecimalNat.Unsigned.of_to n) as Hn.
  rewrite H in Hn. cbn in Hn. subst n. discriminate.
Qed.

Lemma decimal_digits (n : nat) :
  decimal n = NilEmpty.string_of_uint (Nat.to_uint n).
Proof.
  unfold decimal, NilZero.string_of_uint.
  pose proof (to_uint_not_nil n). now destruct (Nat.to_uint n).
Qed.

Lemma decimal_not_empty (n : nat) : decimal n <> EmptyString.
Proof.
  rewrite decimal_digits. pose proof (to_uint_not_nil n).
  now destruct (Nat.to_uint n).
Qed.

Lemma zeros_read (k : nat) (d : Decimal.uint) :
  option_map Nat.of_uint
    (NilEmpty.uint_of_string
       (String.append (zeros k) (NilEmpty.string_of_uint d)))
  = Some (Nat.of_uint d).
Proof.
  induction k as [| k IH]; cbn [zeros String.append].
  - now rewrite NilEmpty.usu.
  - cbn [NilEmpty.uint_of_string].
    destruct (NilEmpty.uint_of_string _) as [d' |]; [| discriminate].
    cbn in *. exact IH.
Qed.

(** A zero-padded field reads back as the number it was made from. *)
Lemma read_zfill (w n : nat) : read_decimal (zfill w n) = Some n.
Proof.
  unfold read_decimal, zfill. cbv zeta.
  destruct (String.append _ (decimal n)) eqn:Hs.
  - exfalso. destruct (zeros _); [| discriminate].
    now apply (decimal_not_empty n).
  - rewrite <- Hs, decimal_digits, zeros_read.
    now rewrite DecimalNat.Unsigned.of_to.
Qed.

Lemma uint_of_string_digits (s : string) (d : Decimal.uint) :
  NilEmpty.uint_of_string s = Some d -> all_digits s = true.
Proof.
  revert d. induction s as [| a s IH]; intros d; cbn; [reflexivity |].
  destruct (NilEmpty.uint_of_string s) as [d' |]; [| discriminate].
  intros H. rewrite (IH d' eq_refl), Bool.andb_true_r.
  unfold is_digit.
  destruct a as [[|] [|] [|] [|] [|] [|] [|] [|]]; (discriminate || reflexivity).
Qed.

Lemma zfill_digits (w n : nat) : all_digits (zfill w n) = true.
Proof.
  unfold zfill. cbv zeta. rewrite decimal_digits.
  induction (w - _) as [| k IH]; cbn [zeros String.append all_digits].
  - exact (uint_of_string_digits _ _ (NilEmpty.usu _)).
  - now rewrite IH.
Qed.

Lemma split_at_digits (c : ascii) (s rest : string) :
  all_digits s = true -> is_digit c = false ->
  split_at c (String.append s (String c rest)) = Some (s, rest).
Proof.
  intros Hs Hc. induction s as [| a s IH]; cbn [String.append split_at].
  - now rewrite Ascii.eqb_refl.
  - cbn in Hs. apply Bool.andb_true_iff in Hs as [Ha Hs].
    destruct (Ascii.eqb_spec a c) as [-> | _]; [congruence |].
    now rewrite (IH Hs).
Qed.

Lemma split_at_none (c : ascii) (s : string) :
  all_digits s = true -> is_digit c = false -> split_at c s = None.
Proof.
  intros Hs Hc. induction s as [| a s IH]; cbn [split_at]; [reflexivity |].
  cbn in Hs. apply Bool.andb_true_iff in Hs as [Ha Hs].
  destruct (Ascii.eqb_spec a c) as [-> | _]; [congruence |].
  now rewrite (IH Hs).
Qed.

Lemma isoformat_fields (t : datetime) :
  isoformat t =
  String.append (zfill 4 (year t)) (String "-"
    (String.append (zfill 2 (month t)) (String "-"
      (String.append (zfill 2 (day t)) (String "T"
        (String.append (zfill 2 (hour t)) (String ":"
          (String.append (zfill 2 (minute t)) (String ":"
            (String.append (zfill 2 (second t))
               match microsecond t with
               | O => EmptyString
               | us => String "." (zfill 6 us)
               end)))))))))).
Proof.
  unfold isoformat. cbn [String.concat String.append].
  reflexivity.
Qed.

Lemma append_empty (s : string) : String.append s EmptyString = s.
Proof. induction s as [| a s IH]; cbn; [reflexivity | now rewrite IH]. Qed.

(** What [isoformat] writes, the ISO-8601 reader reads back as the same
    instant, field by field. *)
Lemma parse_isoformat_isoformat (t : datetime) :
  parse_isoformat (isoformat t) = Some t.
Proof.
  rewrite isoformat_fields. unfold parse_isoformat.
  rewrite !split_at_digits by (apply zfill_digits || reflexivity).
  destruct t as [y mo d h mi sec us]; cbn [year month day hour minute second
                                             microsecond].
  destruct us as [| us].
  - rewrite append_empty, split_at_none by (apply zfill_digits || reflexivity).
    now rewrite !read_zfill.
  - rewrite split_at_digits by (apply zfill_digits || reflexivity).
    now rewrite !read_zfill.
Qed.

Lemma string_of_uint_length (d : Decimal.uint) :
  String.length (NilEmpty.string_of_uint d) = DecimalNat.Unsigned.usize d.
Proof. induction d; cbn; congruence. Qed.

Lemma nzhead_not_zero (d d' : Decimal.uint) :
  Decimal.nzhead d <> Decimal.D0 d'.
Proof. induction d; cbn; (assumption || discriminate). Qed.

Lemma unorm_zero_head (d : Decimal.uint) :
  Decimal.unorm (Decimal.D0 d) = Decimal.D0 d -> d = Decimal.Nil.
Proof.
  unfold Decimal.unorm. cbn [Decimal.nzhead].
  destruct (Decimal.nzhead d) eqn:Hd; intros H;
    try (exfalso; eapply (nzhead_not_zero d); rewrite Hd; exact H).
  now inversion H.
Qed.

Lemma of_uint_acc_lower (d : Decimal.uint) (acc : nat) :
  1 <= acc -> 10 ^ DecimalNat.Unsigned.usize d <= Nat.of_uint_acc d acc.
Proof.
  intros Hacc. rewrite DecimalNat.Unsigned.of_uint_acc_spec.
  destruct acc as [| acc]; [lia |]. cbn [Nat.mul]. lia.
Qed.

(** A number below [10 ^ w] prints in at most [w] digits. *)
Lemma to_uint_size (w n : nat) :
  1 <= w -> n < 10 ^ w -> DecimalNat.Unsigned.usize (Nat.to_uint n) <= w.
Proof.
  intros Hw Hn.
  pose proof (DecimalNat.Unsigned.to_of (Nat.to_uint n)) as Hnorm.
  pose proof (DecimalNat.Unsigned.of_to n) as Hval.
  rewrite Hval in Hnorm.
  assert (Hbig : forall d acc, 1 <= acc ->
            Nat.of_uint_acc d acc = n -> S (DecimalNat.Unsigned.usize d) <= w).
  { intros d acc Hacc Hd.
    pose proof (of_uint_acc_lower d acc Hacc) as Hlow. rewrite Hd in Hlow.
    apply (Nat.pow_lt_mono_r_iff 10); lia. }
  destruct (Nat.to_uint n) as [| d | d | d | d | d | d | d | d | d | d] eqn:Hd;
    cbn [DecimalNat.Unsigned.usize].
  - lia.
  - symmetry in Hnorm. apply unorm_zero_head in Hnorm. subst d. cbn. lia.
  - apply (Hbig d 1); [lia | exact Hval].
  - apply (Hbig d 2); [lia | exact Hval].
  - apply (Hbig d 3); [lia | exact Hval].
  - apply (Hbig d 4); [lia | exact Hval].
  - apply (Hbig d 5); [lia | exact Hval].
  - apply (Hbig d 6); [lia | exact Hval].
  - apply (Hbig d 7); [lia | exact Hval].
  - apply (Hbig d 8); [lia | exact Hval].
  - apply (Hbig d 9); [lia | exact Hval].
Qed.

Lemma append_length (s1 s2 : string) :
  String.length (String.append s1 s2) = String.length s1 + String.length s2.
Proof. induction s1 as [| a s1 IH]; cbn; [reflexivity | now rewrite IH]. Qed.

Lemma zeros_length (k : nat) : String.length (zeros k) = k.
Proof. induction k as [| k IH]; cbn; [reflexivity | now rewrite IH]. Qed.

(** A number below [10 ^ w], zero-padded to [w], is the [w]-digit field
    of that number. *)
Lemma zfill_field (w n : nat) :
  1 <= w -> n < 10 ^ w -> field w n (zfill w n).
Proof.
  intros Hw Hn. split; [| split].
  - pose proof (to_uint_size w n Hw Hn) as Hsize.
    unfold zfill. cbv zeta.
    rewrite append_length, zeros_length, decimal_digits,
      string_of_uint_length.
    lia.
  - apply zfill_digits.
  - apply read_zfill.
Qed.

Section Properties.

Context {W : Type}.
Variable utcnow : W -> Result datetime * W.
Variable requests_post : request -> W -> Result response * W.
Variable unencodable : pyval -> option exception.
Variable scrape_alibaba : string -> M W (list Dict).
Variable scrape_1688 : string -> M W (list Dict).

Local Abbreviation send := (send_to_webhook utcnow requests_post unencodable).
Local Abbreviation aggregate := (all_products scrape_alibaba scrape_1688).
Local Abbreviation products_loop := (for_product utcnow requests_post unencodable).
Local Abbreviation categories_loop :=
  (for_subcategory utcnow requests_post unencodable scrape_alibaba scrape_1688).
Local Abbreviation run_main :=
  (main utcnow requests_post unencodable scrape_alibaba scrape_1688).
Local Abbreviation step1 := (step utcnow requests_post unencodable scrape_alibaba scrape_1688).
Local Abbreviation steps := (exec utcnow requests_post unencodable scrape_alibaba scrape_1688).

Notation "x <- m ;; k" := (bind m (fun x => k))
  (at level 61, m at next level, right associativity).
Notation "m ;; k" := (bind m (fun _ => k))
  (at level 61, right associativity).

(** ** The delivery sink *)

Lemma payload_display (cfg : Config) (timestamp : string) (p : Dict) :
  payload cfg timestamp p =
  [ ("source", PStr "colab");
    ("gmail_account", PStr (GMAIL_ACCOUNT cfg));
    ("timestamp", PStr timestamp);
    ("product", PDict p) ].
Proof. reflexivity. Qed.

(** Every path through [send_to_webhook], written out. *)
Lemma send_to_webhook_paths (cfg : Config) (p : Dict) (st : State W) :
  send cfg p st =
  match utcnow (world st) with
  | (Raise e, w1) =>
      (Ok false,
       {| world := w1;
          stdout := stdout st ++ [Log_failed_to_send (exc_str e)];
          post_calls := post_calls st |})
  | (Ok now, w1) =>
      let rq := {| url := WEBHOOK_URL cfg;
                   json := PDict (payload cfg (isoformat now) p);
                   timeout := SCRAPE_TIMEOUT cfg |} in
      match requests_post rq w1 with
      | (Raise e, w2) =>
          (Ok false,
           {| world := w2;
              stdout := stdout st ++ [Log_failed_to_send (exc_str e)];
              post_calls := post_calls st ++ [rq] |})
      | (Ok r, w2) =>
          if (status_code r =? 200)%Z then
            match print_failure unencodable (dict_get "name" p) with
            | None =>
                (Ok true,
                 {| world := w2;
                    stdout := stdout st ++ [Log_success (dict_get "name" p)];
                    post_calls := post_calls st ++ [rq] |})
            | Some e =>
                (Ok false,
                 {| world := w2;
                    stdout := stdout st ++ [Log_failed_to_send (exc_str e)];
                    post_calls := post_calls st ++ [rq] |})
            end
          else
            (Ok false,
             {| world := w2;
                stdout :=
                  stdout st ++ [Log_webhook_returned (status_code r)];
                post_calls := post_calls st ++ [rq] |})
      end
  end.
Proof.
  unfold send_to_webhook, try_except, bind, datetime_utcnow, post,
    print_success, print, ret.
  cbn [world stdout post_calls].
  destruct (utcnow (world st)) as [[now | e] w1]; cbn [world stdout post_calls].
  - destruct (requests_post _ w1) as [[r | e] w2];
      cbn [world stdout post_calls]; [| reflexivity].
    destruct (status_code r =? 200)%Z; [| reflexivity].
    destruct (print_failure unencodable (dict_get "name" p)); reflexivity.
  - reflexivity.
Qed.

(** The sink always hands back a boolean. *)
Lemma send_to_webhook_returns (cfg : Config) (p : Dict) (st : State W) :
  exists b st', send cfg p st = (Ok b, st').
Proof.
  rewrite send_to_webhook_paths.
  destruct (utcnow (world st)) as [[now | e] w1]; [| eauto].
  cbv zeta.
  destruct (requests_post _ w1) as [[r | e] w2]; [| eauto].
  destruct (status_code r =? 200)%Z; [| eauto].
  destruct (print_failure unencodable (dict_get "name" p)); eauto.
Qed.

(** C1, as the code has it.  [send_to_webhook] never lets an exception
    of the clock, of [requests.post] or of its success line out: it
    returns a boolean.  The boolean is [True] exactly when the clock was
    read, the POST to the configured endpoint came back with status code
    200, and the success line could be printed.  In every other case
    (another status code, an exception from the clock or from
    [requests.post], a name the standard output refuses after a 200) the
    result is [False].  The failure line of the handler is taken to
    print. *)
Theorem send_to_webhook_true_iff_200_and_logged
  (cfg : Config) (p : Dict) (st : State W) :
  exists b st',
    send cfg p st = (Ok b, st') /\
    (b = true <->
     exists now w1 r w2,
       utcnow (world st) = (Ok now, w1) /\
       requests_post
         {| url := WEBHOOK_URL cfg;
            json := PDict (payload cfg (isoformat now) p);
            timeout := SCRAPE_TIMEOUT cfg |} w1 = (Ok r, w2) /\
       status_code r = 200%Z /\
       print_failure unencodable (dict_get "name" p) = None).
Proof.
  rewrite send_to_webhook_paths.
  destruct (utcnow (world st)) as [[now | e] w1] eqn:Hclock; cbv zeta.
  - destruct (requests_post _ w1) as [[r | e] w2] eqn:Hpost.
    + destruct (Z.eqb_spec (status_code r) 200) as [H200 | Hother].
      * destruct (print_failure unencodable (dict_get "name" p)) eqn:Hprint.
        -- do 2 eexists; split; [reflexivity |].
           split; [discriminate |].
           intros (now' & w1' & r' & w2' & _ & _ & _ & Hnone). discriminate.
        -- do 2 eexists; split; [reflexivity |].
           split; [intros _ | reflexivity].
           exists now, w1, r, w2. auto.
      * do 2 eexists; split; [reflexivity |].
        split; [discriminate |].
        intros (now' & w1' & r' & w2' & Hc & Hp & Hs & _).
        inversion Hc; subst now' w1'.
        rewrite Hpost in Hp. inversion Hp; subst r' w2'. contradiction.
    + do 2 eexists; split; [reflexivity |].
      split; [discriminate |].
      intros (now' & w1' & r' & w2' & Hc & Hp & _).
      inversion Hc; subst now' w1'.
      rewrite Hpost in Hp. discriminate.
  - do 2 eexists; split; [reflexivity |].
    split; [discriminate |].
    intros (now' & w1' & r' & w2' & Hc & _). discriminate.
Qed.

(** C4.  What [send_to_webhook] transmits.  When the clock can be read,
    the call makes one POST to [WEBHOOK_URL] whose body is the dictionary
    with exactly the keys [source], [gmail_account], [timestamp] and
    [product], holding ["colab"], the configured account, the ISO form of
    the clock reading taken in this call, and the record it was called
    with; nothing else of the configuration or of the state enters the
    body.  When the clock raises, nothing is posted.  The ISO form is
    pinned: the ISO-8601 reader reads [isoformat t] back as [t], and for
    a reading within the field ranges the text is
    [YYYY-MM-DDTHH:MM:SS], each field being the digits of the number
    zero-padded to exactly its width, followed by [.] and the six digits
    of the microseconds when these are not zero. *)
Theorem envelope_fields (cfg : Config) (p : Dict) (st : State W) :
  match utcnow (world st) with
  | (Ok now, _) =>
      post_calls (snd (send cfg p st)) =
      post_calls st ++
      [ {| url := WEBHOOK_URL cfg;
           json := PDict [ ("source", PStr "colab");
                           ("gmail_account", PStr (GMAIL_ACCOUNT cfg));
                           ("timestamp", PStr (isoformat now));
                           ("product", PDict p) ];
           timeout := SCRAPE_TIMEOUT cfg |} ]
  | (Raise _, _) => post_calls (snd (send cfg p st)) = post_calls st
  end /\
  (forall t, parse_isoformat (isoformat t) = Some t) /\
  (forall t,
     in_range t ->
     isoformat t =
     String.append (zfill 4 (year t)) (String "-"
       (String.append (zfill 2 (month t)) (String "-"
         (String.append (zfill 2 (day t)) (String "T"
           (String.append (zfill 2 (hour t)) (String ":"
             (String.append (zfill 2 (minute t)) (String ":"
               (String.append (zfill 2 (second t))
                  match microsecond t with
                  | O => EmptyString
                  | us => String "." (zfill 6 us)
                  end)))))))))) /\
     field 4 (year t) (zfill 4 (year t)) /\
     field 2 (month t) (zfill 2 (month t)) /\
     field 2 (day t) (zfill 2 (day t)) /\
     field 2 (hour t) (zfill 2 (hour t)) /\
     field 2 (minute t) (zfill 2 (minute t)) /\
     field 2 (second t) (zfill 2 (second t)) /\
     field 6 (microsecond t) (zfill 6 (microsecond t))).
Proof.
  split; [| split].
  - rewrite send_to_webhook_paths.
    destruct (utcnow (world st)) as [[now | e] w1]; [| reflexivity].
    cbv zeta.
    destruct (requests_post _ w1) as [[r | e] w2]; [| reflexivity].
    destruct (status_code r =? 200)%Z; [| reflexivity].
    destruct (print_failure unencodable (dict_get "name" p)); reflexivity.
  - exact parse_isoformat_isoformat.
  - intros t (Hy & Hmo & Hd & Hh & Hmi & Hs & Hus).
    assert (H100 : 10 ^ 2 = 100) by reflexivity.
    split; [apply isoformat_fields |].
    repeat split; try apply zfill_digits; try apply read_zfill;
      apply zfill_field; lia.
Qed.

(** ** The aggregator *)

Lemma all_products_paths (s : string) (st : State W) :
  aggregate s st =
  match scrape_alibaba s st with
  | (Ok a, st1) =>
      match scrape_1688 s st1 with
      | (Ok b, st2) => (Ok (a ++ b), st2)
      | (Raise e, st2) => (Raise e, st2)
      end
  | (Raise e, st1) => (Raise e, st1)
  end.
Proof.
  unfold all_products, bind, ret.
  destruct (scrape_alibaba s st) as [[a | e] st1]; [| reflexivity].
  destruct (scrape_1688 s st1) as [[b | e] st2]; reflexivity.
Qed.

(** C5.  When both adapters return, the sequence the inner loop iterates
    is the Alibaba list followed by the 1688 list: position [i] of the
    first list stays at position [i], position [j] of the second lands at
    [length a + j], and nothing else is in it. *)
Theorem all_products_is_concatenation
  (s : string) (st st1 st2 : State W) (a b : list Dict) :
  scrape_alibaba s st = (Ok a, st1) ->
  scrape_1688 s st1 = (Ok b, st2) ->
  exists l,
    aggregate s st = (Ok l, st2) /\
    l = a ++ b /\
    List.length l = List.length a + List.length b /\
    (forall i, i < List.length a -> nth_error l i = nth_error a i) /\
    (forall j, nth_error l (List.length a + j) = nth_error b j).
Proof.
  intros Ha Hb. exists (a ++ b).
  rewrite all_products_paths, Ha, Hb.
  repeat split.
  - apply length_app.
  - intros i Hi. now apply nth_error_app1.
  - intros j. rewrite nth_error_app2 by lia.
    f_equal. lia.
Qed.

(** ** Steps of a run *)

Local Abbreviation moves :=
  (transition utcnow requests_post unencodable scrape_alibaba scrape_1688).

(** Case analysis on the step taken. *)
Ltac step_cases H :=
  destruct H as [k Hk
                | k sub rest ps st' Hk Hagg
                | k sub rest e st' Hk Hagg
                | k cs p rest b st' Hk Hsend
                | k Hk].

Lemma step_transition (cfg : Config) (c c' : config W) (l : label) :
  step1 cfg c = Some (l, c') -> moves cfg c l c'.
Proof.
  unfold step. destruct c as [k s f st]; cbn [ctl total_sent total_failed io].
  destruct k as [| cs ps | | e]; try discriminate.
  - intros H; inversion H; subst. now apply T_started.
  - destruct ps as [| p ps].
    + destruct cs as [| sub cs].
      * intros H; inversion H; subst. now apply T_finished.
      * destruct ((print (Log_processing sub) ;; aggregate sub) st)
          as [[ps | e] st'] eqn:Hagg;
          intros H; inversion H; subst.
        -- now eapply T_scraped with (rest := cs).
        -- now eapply T_adapter_raised with (rest := cs).
    + destruct (send_to_webhook_returns cfg p st) as (b & st' & Hsend).
      rewrite Hsend. unfold tally.
      destruct b, cs; intros H; inversion H; subst;
        now apply T_sent with (c := {| ctl := Running _ (p :: ps);
                                       total_sent := s; total_failed := f;
                                       io := st |}).
Qed.

Lemma transition_step (cfg : Config) (c c' : config W) (l : label) :
  moves cfg c l c' -> step1 cfg c = Some (l, c').
Proof.
  intros H. unfold step.
  destruct H as [c Hc | c sub rest ps st Hc Hagg | c sub rest e st Hc Hagg
                 | c cs p rest b st Hc Hsend | c Hc]; rewrite Hc.
  - reflexivity.
  - now rewrite Hagg.
  - now rewrite Hagg.
  - rewrite Hsend. unfold tally. now destruct b, cs.
  - reflexivity.
Qed.

Lemma halted_no_step (cfg : Config) (c : config W) :
  halted c = true <-> step1 cfg c = None.
Proof.
  split.
  - unfold halted, step. destruct (ctl c); (discriminate || reflexivity).
  - intros Hnone. unfold halted.
    destruct (ctl c) as [| cs ps | | e] eqn:Hc; try reflexivity;
      exfalso; revert Hnone; unfold step; rewrite Hc.
    + discriminate.
    + destruct ps as [| p ps].
      * destruct cs as [| sub cs]; [discriminate |].
        destruct ((print (Log_processing sub) ;; aggregate sub) (io c))
          as [[ps | e] st']; discriminate.
      * destruct (send cfg p (io c)) as [[b | e] st'];
          [destruct (tally b (total_sent c, total_failed c)) |];
          destruct cs; discriminate.
Qed.

Lemma exec_app (cfg : Config) (n m : nat) (c : config W) :
  steps cfg (n + m) c =
  let (tr1, c1) := steps cfg n c in
  let (tr2, c2) := steps cfg m c1 in
  (tr1 ++ tr2, c2).
Proof.
  revert c. induction n as [| n IH]; intros c; cbn [exec Nat.add].
  - now destruct (steps cfg m c).
  - destruct (step1 cfg c) as [[l c'] |] eqn:Hstep.
    + rewrite IH. destruct (steps cfg n c') as [tr1 c1].
      now destruct (steps cfg m c1).
    + destruct m as [| m]; cbn [exec]; [reflexivity |].
      now rewrite Hstep.
Qed.

(** Induction over the configurations a run goes through. *)
Lemma exec_invariant (cfg : Config)
  (P : list label -> config W -> Prop) (c0 : config W) :
  P [] c0 ->
  (forall tr c l c', P tr c -> moves cfg c l c' -> P (tr ++ [l]) c') ->
  forall n tr c, steps cfg n c0 = (tr, c) -> P tr c.
Proof.
  intros Hinit Hstep n. revert P c0 Hinit Hstep.
  induction n as [| n IH]; intros P c0 Hinit Hstep tr c; cbn [exec].
  - intros H; inversion H; subst. exact Hinit.
  - destruct (step1 cfg c0) as [[l c1] |] eqn:H1.
    + destruct (steps cfg n c1) as [tr' c''] eqn:Hrest.
      intros H; inversion H; subst.
      apply (IH (fun t k => P (l :: t) k) c1); [| | exact Hrest].
      * apply (Hstep [] c0 l c1 Hinit). now apply step_transition.
      * intros t k l' k' HP Hmove.
        apply (Hstep (l :: t) k l' k' HP Hmove).
    + intros H; inversion H; subst. exact Hinit.
Qed.

(** ** [main] and the stepped run agree *)

Lemma for_product_returns (cfg : Config) (ps : list Dict) :
  forall (t : Z * Z) (st : State W),
  exists t' st', products_loop cfg ps t st = (Ok t', st').
Proof.
  induction ps as [| p ps IH]; intros t st; cbn [for_product].
  - unfold ret. eauto.
  - unfold bind.
    destruct (send_to_webhook_returns cfg p st) as (b & st1 & Hsend).
    rewrite Hsend. apply IH.
Qed.

Lemma for_product_exec (cfg : Config) (ps : list Dict) :
  forall (cs : list string) (s f : Z) (st : State W) t' st',
  products_loop cfg ps (s, f) st = (Ok t', st') ->
  exists tr,
    steps cfg (List.length ps)
      {| ctl := Running cs ps; total_sent := s; total_failed := f; io := st |}
    = (tr, {| ctl := Running cs []; total_sent := fst t';
              total_failed := snd t'; io := st' |}).
Proof.
  induction ps as [| p ps IH]; intros cs s f st t' st';
    cbn [for_product List.length exec].
  - unfold ret. intros H; inversion H; subst. now exists [].
  - unfold bind.
    destruct (send_to_webhook_returns cfg p st) as (b & st1 & Hsend).
    rewrite Hsend. intros Hrest.
    rewrite (transition_step cfg _ _ _
               (T_sent _ _ _ _ _ cfg
                  {| ctl := Running cs (p :: ps); total_sent := s;
                     total_failed := f; io := st |}
                  cs p ps b st1 eq_refl Hsend)).
    cbn [total_sent total_failed].
    assert (Htally : tally b (s, f)
                     = (if b then (s + 1)%Z else s,
                        if b then f else (f + 1)%Z))
      by now destruct b.
    rewrite Htally in Hrest.
    destruct (IH cs _ _ _ _ _ Hrest) as (tr & Htr).
    rewrite Htr. eauto.
Qed.

Lemma for_subcategory_cons
  (cfg : Config) (sub : string) (rest : list string)
  (t : Z * Z) (st : State W) :
  categories_loop cfg (sub :: rest) t st =
  match (print (Log_processing sub) ;; aggregate sub) st with
  | (Ok ps, st1) =>
      match products_loop cfg ps t st1 with
      | (Ok t', st2) => categories_loop cfg rest t' st2
      | (Raise e, st2) => (Raise e, st2)
      end
  | (Raise e, st1) => (Raise e, st1)
  end.
Proof.
  cbn [for_subcategory]. unfold bind, print. cbv beta iota.
  destruct (aggregate sub _) as [[ps | e] st1]; [| reflexivity].
  destruct (products_loop cfg ps t st1) as [[t' | e] st2]; reflexivity.
Qed.

Lemma for_subcategory_exec (cfg : Config) (cs : list string) :
  forall (s f : Z) (st : State W),
  exists n tr c,
    steps cfg n
      {| ctl := Running cs []; total_sent := s; total_failed := f; io := st |}
    = (tr, c) /\
    match categories_loop cfg cs (s, f) st with
    | (Ok t', st') =>
        c = {| ctl := Running [] []; total_sent := fst t';
               total_failed := snd t'; io := st' |}
    | (Raise e, st') => ctl c = Crashed e /\ io c = st'
    end.
Proof.
  induction cs as [| sub rest IH]; intros s f st.
  - exists 0, [], {| ctl := Running [] []; total_sent := s;
                     total_failed := f; io := st |}.
    split; reflexivity.
  - rewrite for_subcategory_cons.
    destruct ((print (Log_processing sub) ;; aggregate sub) st)
      as [[ps | e] st1] eqn:Hagg.
    + destruct (for_product_returns cfg ps (s, f) st1) as (t' & st2 & Hloop).
      rewrite Hloop.
      destruct (for_product_exec cfg ps rest s f st1 t' st2 Hloop)
        as (tr1 & Htr1).
      destruct (IH (fst t') (snd t') st2) as (n & tr2 & c & Htr2 & Hc).
      exists (1 + (List.length ps + n)), (Scraped sub ps :: tr1 ++ tr2), c.
      split.
      * cbn [Nat.add exec].
        rewrite (transition_step cfg _ _ _
                   (T_scraped _ _ _ _ _ cfg
                      {| ctl := Running (sub :: rest) []; total_sent := s;
                         total_failed := f; io := st |}
                      sub rest ps st1 eq_refl Hagg)).
        cbn [total_sent total_failed].
        now rewrite exec_app, Htr1, Htr2.
      * now destruct t'.
    + exists 1, [Adapter_raised sub e],
        {| ctl := Crashed e; total_sent := s; total_failed := f; io := st1 |}.
      split; [| split; reflexivity].
      cbn [exec].
      now rewrite (transition_step cfg _ _ _
                     (T_adapter_raised _ _ _ _ _ cfg
                        {| ctl := Running (sub :: rest) []; total_sent := s;
                           total_failed := f; io := st |}
                        sub rest e st1 eq_refl Hagg)).
Qed.

(** [main], written out around the outer loop. *)
Lemma main_paths (cfg : Config) (st : State W) :
  run_main cfg st =
  match categories_loop cfg (SUBCATEGORIES cfg) (0%Z, 0%Z)
          {| world := world st;
             stdout := (stdout st ++ [Log_start (GMAIL_ACCOUNT cfg)])
                       ++ [Log_subcategories
                             (String.concat ", " (SUBCATEGORIES cfg))];
             post_calls := post_calls st |} with
  | (Ok totals, st1) =>
      (Ok tt,
       {| world := world st1;
          stdout := (stdout st1 ++ [Log_complete])
                    ++ [Log_stats (fst totals) (snd totals)];
          post_calls := post_calls st1 |})
  | (Raise e, st1) => (Raise e, st1)
  end.
Proof.
  unfold main, bind, print. cbv beta iota. cbn [world stdout post_calls].
  now destruct (categories_loop _ _ _ _) as [[t' | e] st1].
Qed.

(** Every run halts, and it halts where [main] does: in [Complete] with
    the state [main] returns in, or in [Crashed e] with the state [main]
    raises [e] in. *)
Lemma main_exec (cfg : Config) (st : State W) :
  exists n tr c,
    steps cfg n (start st) = (tr, c) /\
    halted c = true /\
    io c = snd (run_main cfg st) /\
    match fst (run_main cfg st) with
    | Ok _ => ctl c = Complete
    | Raise e => ctl c = Crashed e
    end.
Proof.
  rewrite main_paths.
  set (st0 := {| world := world st;
                 stdout := (stdout st ++ [Log_start (GMAIL_ACCOUNT cfg)])
                           ++ [Log_subcategories
                                 (String.concat ", " (SUBCATEGORIES cfg))];
                 post_calls := post_calls st |}).
  destruct (for_subcategory_exec cfg (SUBCATEGORIES cfg) 0 0 st0)
    as (n & tr & c & Hrun & Hc).
  assert (Hfirst : step1 cfg (start st)
                   = Some (Started,
                           {| ctl := Running (SUBCATEGORIES cfg) [];
                              total_sent := 0; total_failed := 0;
                              io := st0 |}))
    by reflexivity.
  destruct (categories_loop cfg (SUBCATEGORIES cfg) (0%Z, 0%Z) st0)
    as [[t' | e] st1].
  - subst c.
    exists (1 + (n + 1)), (Started :: tr ++ [Finished (fst t') (snd t')]),
      {| ctl := Complete; total_sent := fst t'; total_failed := snd t';
         io := {| world := world st1;
                  stdout := (stdout st1 ++ [Log_complete])
                            ++ [Log_stats (fst t') (snd t')];
                  post_calls := post_calls st1 |} |}.
    split; [| split; [| split]]; try reflexivity.
    cbn [Nat.add exec]. rewrite Hfirst, exec_app, Hrun. reflexivity.
  - destruct Hc as (Hctl & Hio).
    exists (1 + n), (Started :: tr), c. split; [| split; [| split]].
    + cbn [Nat.add exec]. now rewrite Hfirst, Hrun.
    + unfold halted. now rewrite Hctl.
    + exact Hio.
    + exact Hctl.
Qed.

(** ** Invariants of a run *)

Lemma exec_halted (cfg : Config) (n : nat) (c : config W) :
  halted c = true -> steps cfg n c = ([], c).
Proof.
  intros H. apply (halted_no_step cfg) in H.
  destruct n; cbn [exec]; [reflexivity | now rewrite H].
Qed.

(** A run has one end: two executions that both halted are the same. *)
Lemma exec_halted_agree (cfg : Config) (c0 : config W)
  (n m : nat) (tr tr' : list label) (c c' : config W) :
  steps cfg n c0 = (tr, c) -> halted c = true ->
  steps cfg m c0 = (tr', c') -> halted c' = true ->
  tr = tr' /\ c = c'.
Proof.
  intros Hn Hc Hm Hc'.
  assert (Hnm : steps cfg (n + m) c0 = (tr, c)).
  { rewrite exec_app, Hn, (exec_halted cfg m c Hc). now rewrite app_nil_r. }
  assert (Hmn : steps cfg (m + n) c0 = (tr', c')).
  { rewrite exec_app, Hm, (exec_halted cfg n c' Hc'). now rewrite app_nil_r. }
  rewrite Nat.add_comm, Hmn in Hnm. now inversion Hnm.
Qed.

(** A halted configuration is where [main] ended. *)
Lemma halted_is_main (cfg : Config) (st : State W)
  (n : nat) (tr : list label) (c : config W) :
  steps cfg n (start st) = (tr, c) -> halted c = true ->
  io c = snd (run_main cfg st) /\
  match fst (run_main cfg st) with
  | Ok _ => ctl c = Complete
  | Raise e => ctl c = Crashed e
  end.
Proof.
  intros Hrun Hc.
  destruct (main_exec cfg st) as (m & tr' & c' & Hrun' & Hc' & Hio & Hctl).
  destruct (exec_halted_agree cfg _ _ _ _ _ _ _ Hrun Hc Hrun' Hc') as [_ ->].
  now split.
Qed.

Lemma sink_results_snoc (tr : list label) (l : label) :
  sink_results (tr ++ [l]) =
  sink_results tr ++ match l with Sent _ b => [b] | _ => [] end.
Proof.
  unfold sink_results. rewrite flat_map_app. cbn [flat_map].
  now rewrite app_nil_r.
Qed.

Lemma sent_products_snoc (tr : list label) (l : label) :
  sent_products (tr ++ [l]) =
  sent_products tr ++ match l with
                      | Sent p _ | Sink_raised p _ => [p]
                      | _ => []
                      end.
Proof.
  unfold sent_products. rewrite flat_map_app. cbn [flat_map].
  now rewrite app_nil_r.
Qed.

Lemma visits_snoc (tr : list label) (l : label) :
  visits (tr ++ [l]) =
  visits tr ++ match l with Scraped s ps => [(s, ps)] | _ => [] end.
Proof.
  unfold visits. rewrite flat_map_app. cbn [flat_map].
  now rewrite app_nil_r.
Qed.

Lemma outline_snoc (tr : list label) (l : label) :
  outline (tr ++ [l]) =
  outline tr ++ match l with
                | Scraped s ps => [Visit_scrape s ps]
                | Sent p _ | Sink_raised p _ => [Visit_send p]
                | _ => []
                end.
Proof.
  unfold outline. rewrite flat_map_app. cbn [flat_map].
  now rewrite app_nil_r.
Qed.

Lemma successes_snoc (rs : list bool) (b : bool) :
  successes (rs ++ [b]) = successes rs + (if b then 1 else 0).
Proof.
  unfold successes. rewrite count_occ_app. now destruct b.
Qed.

Lemma failures_snoc (rs : list bool) (b : bool) :
  failures (rs ++ [b]) = failures rs + (if b then 0 else 1).
Proof.
  unfold failures. rewrite count_occ_app. now destruct b.
Qed.

Lemma successes_failures (rs : list bool) :
  successes rs + failures rs = List.length rs.
Proof.
  unfold successes, failures.
  induction rs as [| [|] rs IH]; cbn; [reflexivity | |]; lia.
Qed.

Lemma all_true_successes (rs : list bool) :
  forallb (fun b => b) rs = true -> failures rs = 0.
Proof.
  unfold failures.
  induction rs as [| [|] rs IH]; cbn; intros H; auto; discriminate.
Qed.

Lemma all_false_failures (rs : list bool) :
  forallb negb rs = true -> successes rs = 0.
Proof.
  unfold successes.
  induction rs as [| [|] rs IH]; cbn; intros H; auto; discriminate.
Qed.

(** The counters are the tallies of the results so far, and every call
    of the sink so far produced a result. *)
Lemma counters_track (cfg : Config) (st : State W)
  (n : nat) (tr : list label) (c : config W) :
  steps cfg n (start st) = (tr, c) ->
  (ctl c = Idle -> tr = []) /\
  total_sent c = Z.of_nat (successes (sink_results tr)) /\
  total_failed c = Z.of_nat (failures (sink_results tr)) /\
  List.length (sink_results tr) = sink_invocations tr.
Proof.
  apply (exec_invariant cfg
           (fun tr c =>
              (ctl c = Idle -> tr = []) /\
              total_sent c = Z.of_nat (successes (sink_results tr)) /\
              total_failed c = Z.of_nat (failures (sink_results tr)) /\
              List.length (sink_results tr) = sink_invocations tr)).
  - repeat split; reflexivity.
  - intros tr0 k l k' (Hidle & Hs & Hf & Hlen) Hmove.
    unfold sink_invocations in *.
    rewrite sink_results_snoc, sent_products_snoc.
    step_cases Hmove;
      cbn [ctl total_sent total_failed]; rewrite ?app_nil_r.
    + rewrite (Hidle Hk). repeat split; (discriminate || reflexivity).
    + repeat split; (discriminate || assumption).
    + repeat split; (discriminate || assumption).
    + rewrite successes_snoc, failures_snoc, !length_app, Hs, Hf, Hlen.
      cbn [List.length].
      repeat split; try discriminate; destruct b; lia.
    + repeat split; (discriminate || assumption).
Qed.

Lemma discovered_snoc (tr : list label) (l : label) :
  discovered (tr ++ [l]) =
  discovered tr ++ match l with Scraped _ ps => ps | _ => [] end.
Proof.
  unfold discovered. rewrite visits_snoc, flat_map_app.
  destruct l; cbn [flat_map snd]; now rewrite ?app_nil_r.
Qed.

(** What the sink has been handed, followed by what the inner loop still
    holds, is what the adapters have produced. *)
Lemma sent_then_pending (cfg : Config) (st : State W)
  (n : nat) (tr : list label) (c : config W) :
  steps cfg n (start st) = (tr, c) ->
  sent_products tr ++ pending c = discovered tr.
Proof.
  apply (exec_invariant cfg
           (fun tr c => sent_products tr ++ pending c = discovered tr)).
  - reflexivity.
  - intros tr0 k l k' IH Hmove.
    rewrite sent_products_snoc, discovered_snoc.
    step_cases Hmove;
      unfold pending in *; rewrite Hk in IH; cbn [ctl];
      rewrite ?app_nil_r in *.
    + exact IH.
    + now rewrite IH.
    + exact IH.
    + now rewrite <- app_assoc.
    + exact IH.
Qed.

(** A completed run has just printed its counters. *)
Lemma complete_prints_stats (cfg : Config) (st : State W)
  (n : nat) (tr : list label) (c : config W) :
  steps cfg n (start st) = (tr, c) ->
  ctl c = Complete ->
  final_summary (io c) = Some (total_sent c, total_failed c).
Proof.
  apply (exec_invariant cfg
           (fun _ c => ctl c = Complete ->
                       final_summary (io c)
                       = Some (total_sent c, total_failed c))).
  - discriminate.
  - intros tr0 k l k' IH Hmove.
    destruct Hmove; cbn [ctl io total_sent total_failed]; try discriminate.
    intros _. unfold final_summary. cbn [stdout].
    now rewrite rev_app_distr.
Qed.

Lemma successes_cons (b : bool) (rs : list bool) :
  successes (b :: rs) = (if b then 1 else 0) + successes rs.
Proof.
  unfold successes. cbn [count_occ].
  destruct b; destruct (Bool.bool_dec _ _);
    (discriminate || contradiction || reflexivity).
Qed.

Lemma failures_cons (b : bool) (rs : list bool) :
  failures (b :: rs) = (if b then 0 else 1) + failures rs.
Proof.
  unfold failures. cbn [count_occ].
  destruct b; destruct (Bool.bool_dec _ _);
    (discriminate || contradiction || reflexivity).
Qed.

(** The inner loop of [main] and the stepped run do the same: over a list
    of products, [for_product] returns the totals raised by the numbers
    of [True] and [False] results, and the stepped run, started on that
    list, takes one sink step per product, in list order, and ends with
    those totals in the state [for_product] ends in. *)
Lemma for_product_run (cfg : Config) (ps : list Dict) :
  forall (cs : list string) (s f : Z) (st : State W),
  exists results st',
    List.length results = List.length ps /\
    products_loop cfg ps (s, f) st
      = (Ok ((s + Z.of_nat (successes results))%Z,
             (f + Z.of_nat (failures results))%Z), st') /\
    steps cfg (List.length ps)
      {| ctl := Running cs ps; total_sent := s; total_failed := f; io := st |}
    = (map (fun pb => Sent (fst pb) (snd pb)) (combine ps results),
       {| ctl := Running cs [];
          total_sent := (s + Z.of_nat (successes results))%Z;
          total_failed := (f + Z.of_nat (failures results))%Z;
          io := st' |}).
Proof.
  induction ps as [| p ps IH]; intros cs s f st;
    cbn [for_product List.length exec].
  - exists [], st. unfold ret, successes, failures. cbn.
    rewrite !Z.add_0_r. repeat split.
  - unfold bind.
    destruct (send_to_webhook_returns cfg p st) as (b & st1 & Hsend).
    rewrite Hsend.
    rewrite (transition_step cfg _ _ _
               (T_sent _ _ _ _ _ cfg
                  {| ctl := Running cs (p :: ps); total_sent := s;
                     total_failed := f; io := st |}
                  cs p ps b st1 eq_refl Hsend)).
    cbn [total_sent total_failed].
    destruct (IH cs (if b then (s + 1)%Z else s)
                (if b then f else (f + 1)%Z) st1)
      as (rs & st' & Hlen & Hloop & Hrun).
    exists (b :: rs), st'.
    assert (Hs : ((if b then s + 1 else s) + Z.of_nat (successes rs)
                  = s + Z.of_nat (successes (b :: rs)))%Z)
      by (rewrite successes_cons; destruct b; lia).
    assert (Hf : ((if b then f else f + 1) + Z.of_nat (failures rs)
                  = f + Z.of_nat (failures (b :: rs)))%Z)
      by (rewrite failures_cons; destruct b; lia).
    rewrite Hs, Hf in Hloop, Hrun.
    split; [cbn [List.length]; now rewrite Hlen |]. split.
    + rewrite <- Hloop. now destruct b.
    + rewrite Hrun. reflexivity.
Qed.

(** In every configuration a run goes through, both counters are
    non-negative and their sum is the number of sink calls made so far.
    The next step, whatever it is, lowers neither counter; a sink call
    that returns [True] adds one to [total_sent] and leaves
    [total_failed], one that returns [False] does the opposite, and every
    other step leaves both as they are.  A sink call never ends in an
    exception. *)
Lemma counters_step_invariant (cfg : Config) (st : State W)
  (n : nat) (tr : list label) (c : config W) :
  steps cfg n (start st) = (tr, c) ->
  (0 <= total_sent c)%Z /\
  (0 <= total_failed c)%Z /\
  (total_sent c + total_failed c)%Z = Z.of_nat (sink_invocations tr) /\
  forall l c',
    step1 cfg c = Some (l, c') ->
    (total_sent c <= total_sent c')%Z /\
    (total_failed c <= total_failed c')%Z /\
    match l with
    | Sent _ true =>
        total_sent c' = (total_sent c + 1)%Z /\
        total_failed c' = total_failed c
    | Sent _ false =>
        total_sent c' = total_sent c /\
        total_failed c' = (total_failed c + 1)%Z
    | Sink_raised _ _ => False
    | _ =>
        total_sent c' = total_sent c /\ total_failed c' = total_failed c
    end.
Proof.
  intros Hrun.
  destruct (counters_track cfg st n tr c Hrun) as (Hidle & Hs & Hf & Hlen).
  pose proof (successes_failures (sink_results tr)) as Hsum.
  repeat split; try lia.
  - destruct (step_transition cfg c c' l H) as [k Hk | | | k cs p rest b |];
      cbn [total_sent]; try lia.
    + rewrite Hs, (Hidle Hk). cbn. lia.
    + destruct b; lia.
  - destruct (step_transition cfg c c' l H) as [k Hk | | | k cs p rest b |];
      cbn [total_failed]; try lia.
    + rewrite Hf, (Hidle Hk). cbn. lia.
    + destruct b; lia.
  - destruct (step_transition cfg c c' l H) as [k Hk | | | k cs p rest b |];
      cbn [total_sent total_failed]; try (split; reflexivity).
    + rewrite Hs, Hf, (Hidle Hk). split; reflexivity.
    + destruct b; split; reflexivity.
Qed.

(** C10.  The counters of [main] at every point of a run.  In every
    configuration the run goes through, [total_sent] and [total_failed]
    are non-negative and their sum is the number of sink calls made so
    far; the next step lowers neither, a sink call adds one to exactly
    one of them ([total_sent] on [True], [total_failed] on [False]) and
    every other step leaves both alone.  These are the counters of
    [main]: over any list of products the stepped run takes one sink step
    per product and ends with the totals and in the state [for_product]
    returns, and a run that has halted is in the state [main] ends in,
    with the counters [main] printed as its summary. *)
Theorem counters_invariant (cfg : Config) (st : State W)
  (n : nat) (tr : list label) (c : config W) :
  steps cfg n (start st) = (tr, c) ->
  ((0 <= total_sent c)%Z /\
   (0 <= total_failed c)%Z /\
   (total_sent c + total_failed c)%Z = Z.of_nat (sink_invocations tr) /\
   forall l c',
     step1 cfg c = Some (l, c') ->
     (total_sent c <= total_sent c')%Z /\
     (total_failed c <= total_failed c')%Z /\
     match l with
     | Sent _ true =>
         total_sent c' = (total_sent c + 1)%Z /\
         total_failed c' = total_failed c
     | Sent _ false =>
         total_sent c' = total_sent c /\
         total_failed c' = (total_failed c + 1)%Z
     | Sink_raised _ _ => False
     | _ =>
         total_sent c' = total_sent c /\ total_failed c' = total_failed c
     end) /\
  (halted c = true ->
   io c = snd (run_main cfg st) /\
   (ctl c = Complete ->
    run_main cfg st = (Ok tt, io c) /\
    final_summary (snd (run_main cfg st))
      = Some (total_sent c, total_failed c))) /\
  (forall ps cs s f st0,
   exists results st',
     List.length results = List.length ps /\
     products_loop cfg ps (s, f) st0
       = (Ok ((s + Z.of_nat (successes results))%Z,
              (f + Z.of_nat (failures results))%Z), st') /\
     steps cfg (List.length ps)
       {| ctl := Running cs ps; total_sent := s; total_failed := f;
          io := st0 |}
     = (map (fun pb => Sent (fst pb) (snd pb)) (combine ps results),
        {| ctl := Running cs [];
           total_sent := (s + Z.of_nat (successes results))%Z;
           total_failed := (f + Z.of_nat (failures results))%Z;
           io := st' |})).
Proof.
  intros Hrun. split; [| split].
  - exact (counters_step_invariant cfg st n tr c Hrun).
  - intros Hhalt.
    destruct (halted_is_main cfg st n tr c Hrun Hhalt) as (Hio & Hres).
    split; [exact Hio |]. intros Hc.
    assert (Hmain : run_main cfg st = (Ok tt, io c)).
    { destruct (run_main cfg st) as [[[] | e] st'] eqn:Hmain;
        cbn [fst snd] in *.
      - now subst st'.
      - rewrite Hc in Hres. discriminate. }
    split; [exact Hmain |].
    rewrite Hmain. cbn [snd].
    exact (complete_prints_stats cfg st n tr c Hrun Hc).
  - intros ps cs s f st0. apply for_product_run.
Qed.

(** C2.  When a run completes, [main] has returned, and the summary it
    printed last is [sent] = the number of [True] results and [failed] =
    the number of [False] results of the sink.  There is one result per
    discovered record, so [sent + failed] is the number [N] of discovered
    records; if every result is [True] the summary is [N, 0], if every
    result is [False] it is [0, N]. *)
Theorem summary_counts (cfg : Config) (st : State W)
  (n : nat) (tr : list label) (c : config W) :
  steps cfg n (start st) = (tr, c) ->
  ctl c = Complete ->
  let results := sink_results tr in
  let N := List.length (discovered tr) in
  run_main cfg st = (Ok tt, io c) /\
  List.length results = N /\
  final_summary (io c)
    = Some (Z.of_nat (successes results), Z.of_nat (failures results)) /\
  successes results + failures results = N /\
  (forallb (fun b => b) results = true ->
   successes results = N /\ failures results = 0) /\
  (forallb negb results = true ->
   failures results = N /\ successes results = 0).
Proof.
  intros Hrun Hc results N.
  destruct (counters_track cfg st n tr c Hrun) as (_ & Hs & Hf & Hlen).
  pose proof (sent_then_pending cfg st n tr c Hrun) as Hall.
  unfold pending in Hall. rewrite Hc, app_nil_r in Hall.
  pose proof (successes_failures results) as Hsum.
  assert (HN : List.length results = N).
  { subst results N. rewrite Hlen. unfold sink_invocations. now rewrite Hall. }
  assert (Hhalt : halted c = true) by (unfold halted; now rewrite Hc).
  destruct (halted_is_main cfg st n tr c Hrun Hhalt) as (Hio & Hres).
  repeat split.
  - destruct (run_main cfg st) as [[[] | e] st'] eqn:Hmain; cbn [fst snd] in *.
    + now subst st'.
    + rewrite Hc in Hres. discriminate.
  - exact HN.
  - rewrite (complete_prints_stats cfg st n tr c Hrun Hc). now rewrite Hs, Hf.
  - lia.
  - pose proof (all_true_successes results H). lia.
  - exact (all_true_successes results H).
  - pose proof (all_false_failures results H). lia.
  - exact (all_false_failures results H).
Qed.

Lemma planned_snoc (vs : list (string * list Dict))
  (s : string) (ps : list Dict) :
  planned (vs ++ [(s, ps)])
  = planned vs ++ Visit_scrape s ps :: map Visit_send ps.
Proof.
  unfold planned. rewrite flat_map_app. cbn [flat_map fst snd].
  now rewrite app_nil_r.
Qed.

(** Every run halts.  In every configuration it goes through, the
    steps taken so far, followed by one sink call for each product the
    inner loop still holds, are exactly: for each subcategory scraped so
    far, in order, its scrape and then one sink call per product of its
    list, in list order.  The subcategories scraped so far, followed by
    those still to visit, are the configured list; a completed run has
    scraped all of them.  A run that ends early ends on an exception of
    an adapter: no result of the sink stops the loops. *)
Lemma run_outline_invariant (cfg : Config) (st : State W) :
  (exists n, halted (snd (steps cfg n (start st))) = true) /\
  forall n tr c,
    steps cfg n (start st) = (tr, c) ->
    outline tr ++ map Visit_send (pending c) = planned (visits tr) /\
    List.length (sink_results tr) = sink_invocations tr /\
    match ctl c with
    | Idle => tr = []
    | Running subcategories _ =>
        map fst (visits tr) ++ subcategories = SUBCATEGORIES cfg
    | Complete => map fst (visits tr) = SUBCATEGORIES cfg
    | Crashed e => exists tr0 s, tr = tr0 ++ [Adapter_raised s e]
    end.
Proof.
  split.
  - destruct (main_exec cfg st) as (n & tr & c & Hrun & Hc & _).
    exists n. now rewrite Hrun.
  - intros n tr c Hrun. split; [| split].
    2: { now destruct (counters_track cfg st n tr c Hrun) as (_ & _ & _ & H). }
    + revert n tr c Hrun.
      apply (exec_invariant cfg
               (fun tr c => outline tr ++ map Visit_send (pending c)
                            = planned (visits tr))).
      * reflexivity.
      * intros tr0 k l k' IH Hmove.
        rewrite outline_snoc, visits_snoc.
        step_cases Hmove;
          unfold pending in *; rewrite Hk in IH; cbn [ctl map] in *;
          rewrite ?app_nil_r in *; try exact IH.
        -- now rewrite planned_snoc, <- IH, <- app_assoc.
        -- now rewrite <- app_assoc.
    + revert n tr c Hrun.
      apply (exec_invariant cfg
               (fun tr c =>
                  match ctl c with
                  | Idle => tr = []
                  | Running subcategories _ =>
                      map fst (visits tr) ++ subcategories = SUBCATEGORIES cfg
                  | Complete => map fst (visits tr) = SUBCATEGORIES cfg
                  | Crashed e => exists tr0 s, tr = tr0 ++ [Adapter_raised s e]
                  end)).
      * reflexivity.
      * intros tr0 k l k' IH Hmove.
        rewrite visits_snoc.
        step_cases Hmove;
          rewrite Hk in IH; cbn [ctl]; rewrite ?app_nil_r.
        -- now subst tr0.
        -- rewrite map_app, <- app_assoc. exact IH.
        -- now exists tr0, sub.
        -- exact IH.
        -- now rewrite app_nil_r in IH.
Qed.

(** C3.  [main] visits the configured subcategories in their order and
    hands each product of each list to the sink once, in list order,
    whatever the sink returns.  Every run halts; in every configuration
    it goes through, the steps taken so far, followed by one sink call
    per product the inner loop still holds, are exactly: for each
    subcategory scraped so far, its scrape and then one sink call per
    product of its list, in list order; the subcategories scraped so far
    followed by those still to visit are the configured list, and a run
    that ends early ends on an exception of an adapter.  The run is the
    run of [main]: a halted run is in the state [main] ends in, complete
    when [main] returns and crashed with the exception [main] raises;
    and over any list of products [for_product] is one sink step per
    product, in list order, ending in the same totals and state. *)
Theorem records_attempted_in_order (cfg : Config) (st : State W) :
  ((exists n, halted (snd (steps cfg n (start st))) = true) /\
   forall n tr c,
     steps cfg n (start st) = (tr, c) ->
     outline tr ++ map Visit_send (pending c) = planned (visits tr) /\
     List.length (sink_results tr) = sink_invocations tr /\
     match ctl c with
     | Idle => tr = []
     | Running subcategories _ =>
         map fst (visits tr) ++ subcategories = SUBCATEGORIES cfg
     | Complete => map fst (visits tr) = SUBCATEGORIES cfg
     | Crashed e => exists tr0 s, tr = tr0 ++ [Adapter_raised s e]
     end) /\
  (forall n tr c,
     steps cfg n (start st) = (tr, c) ->
     halted c = true ->
     io c = snd (run_main cfg st) /\
     match fst (run_main cfg st) with
     | Ok _ => ctl c = Complete
     | Raise e => ctl c = Crashed e
     end) /\
  (forall ps cs s f st0,
   exists results st',
     List.length results = List.length ps /\
     products_loop cfg ps (s, f) st0
       = (Ok ((s + Z.of_nat (successes results))%Z,
              (f + Z.of_nat (failures results))%Z), st') /\
     steps cfg (List.length ps)
       {| ctl := Running cs ps; total_sent := s; total_failed := f;
          io := st0 |}
     = (map (fun pb => Sent (fst pb) (snd pb)) (combine ps results),
        {| ctl := Running cs [];
           total_sent := (s + Z.of_nat (successes results))%Z;
           total_failed := (f + Z.of_nat (failures results))%Z;
           io := st' |})).
Proof.
  split; [| split].
  - exact (run_outline_invariant cfg st).
  - intros n tr c Hrun Hhalt. exact (halted_is_main cfg st n tr c Hrun Hhalt).
  - intros ps cs s f st0. apply for_product_run.
Qed.

(** ** Adapter exceptions *)

Lemma for_subcategory_app (cfg : Config) (pre rest : list string) :
  forall (t : Z * Z) (st : State W),
  categories_loop cfg (pre ++ rest) t st =
  match categories_loop cfg pre t st with
  | (Ok t', st') => categories_loop cfg rest t' st'
  | (Raise e, st') => (Raise e, st')
  end.
Proof.
  induction pre as [| sub pre IH]; intros t st.
  - reflexivity.
  - rewrite <- app_comm_cons, !for_subcategory_cons.
    destruct ((print (Log_processing sub) ;; aggregate sub) st)
      as [[ps | e] st1]; [| reflexivity].
    destruct (products_loop cfg ps t st1) as [[t' | e] st2]; [| reflexivity].
    apply IH.
Qed.

(** C6.  Let the subcategories before [s] be processed without an
    adapter exception, and let an adapter raise [e] on [s]: the Alibaba
    adapter, or the 1688 adapter after the Alibaba adapter returned.
    Then [main] raises [e], in the very state the adapter raised it in:
    nothing is printed, sent or scraped afterwards.  The stepped run ends
    in [Crashed e] and has no further step. *)
Theorem adapter_exception_propagates
  (cfg : Config) (st : State W) (pre post : list string) (s : string)
  (t : Z * Z) (st_k st_e : State W) (e : exception) :
  SUBCATEGORIES cfg = pre ++ s :: post ->
  categories_loop cfg pre (0%Z, 0%Z)
    (snd ((print (Log_start (GMAIL_ACCOUNT cfg)) ;;
           print (Log_subcategories
                    (String.concat ", " (SUBCATEGORIES cfg)))) st))
    = (Ok t, st_k) ->
  (scrape_alibaba s (snd (print (Log_processing s) st_k)) = (Raise e, st_e) \/
   exists a st1,
     scrape_alibaba s (snd (print (Log_processing s) st_k)) = (Ok a, st1) /\
     scrape_1688 s st1 = (Raise e, st_e)) ->
  run_main cfg st = (Raise e, st_e) /\
  exists n tr c,
    steps cfg n (start st) = (tr, c) /\
    ctl c = Crashed e /\ io c = st_e /\ step1 cfg c = None.
Proof.
  intros Hcats Hpre Hraise.
  assert (Hmain : run_main cfg st = (Raise e, st_e)).
  { rewrite main_paths.
    unfold bind, print in Hpre. cbv beta iota in Hpre.
    cbn [snd world stdout post_calls] in Hpre.
    rewrite Hcats in *.
    rewrite for_subcategory_app, Hpre, for_subcategory_cons.
    unfold bind at 1. unfold print at 1. rewrite all_products_paths.
    unfold print in Hraise. cbn [snd] in Hraise.
    destruct Hraise as [Ha | (a & st1 & Ha & Hb)].
    - now rewrite Ha.
    - now rewrite Ha, Hb. }
  split; [exact Hmain |].
  destruct (main_exec cfg st) as (n & tr & c & Hrun & Hc & Hio & Hctl).
  rewrite Hmain in Hio, Hctl. cbn [fst snd] in Hio, Hctl.
  exists n, tr, c. repeat split; try assumption.
  now apply halted_no_step.
Qed.

(** ** Boundary and configuration *)

(** C7.  With no subcategory configured, [main] returns after printing
    its two header lines, the completion line and the summary [0, 0]; it
    leaves the outside world and the list of POST calls as they were.  At
    no point of the run has the sink been called. *)
Theorem empty_subcategories (cfg : Config) (st : State W) :
  SUBCATEGORIES cfg = [] ->
  run_main cfg st =
    (Ok tt,
     {| world := world st;
        stdout := stdout st ++ [ Log_start (GMAIL_ACCOUNT cfg);
                                 Log_subcategories "";
                                 Log_complete;
                                 Log_stats 0 0 ];
        post_calls := post_calls st |}) /\
  final_summary (snd (run_main cfg st)) = Some (0%Z, 0%Z) /\
  forall n,
    sink_invocations (fst (steps cfg n (start st))) = 0 /\
    post_calls (io (snd (steps cfg n (start st)))) = post_calls st /\
    world (io (snd (steps cfg n (start st)))) = world st.
Proof.
  intros Hnone.
  assert (Hmain : run_main cfg st =
    (Ok tt,
     {| world := world st;
        stdout := stdout st ++ [ Log_start (GMAIL_ACCOUNT cfg);
                                 Log_subcategories "";
                                 Log_complete;
                                 Log_stats 0 0 ];
        post_calls := post_calls st |})).
  { rewrite main_paths, Hnone. cbn [for_subcategory ret String.concat].
    cbn [world stdout post_calls fst snd].
    now rewrite <- !app_assoc. }
  split; [exact Hmain |]. split.
  - rewrite Hmain. unfold final_summary. cbn [snd stdout].
    now rewrite rev_app_distr.
  - intros n.
    assert (Hfirst : step1 cfg (start st)
                     = Some (Started,
                             {| ctl := Running [] [];
                                total_sent := 0; total_failed := 0;
                                io := snd ((print (Log_start (GMAIL_ACCOUNT cfg)) ;;
                                            print (Log_subcategories
                                                     (String.concat ", " [])))
                                             st) |})).
    { unfold step. cbn [start ctl io]. now rewrite Hnone. }
    destruct n as [| [| n]]; cbn [exec]; rewrite ?Hfirst;
      try (repeat split; reflexivity).
    set (c1 := {| ctl := Running [] []; total_sent := 0; total_failed := 0;
                  io := _ |}).
    change (step1 cfg c1)
      with (Some (Finished 0 0,
                  {| ctl := Complete; total_sent := 0; total_failed := 0;
                     io := snd ((print Log_complete ;;
                                 print (Log_stats 0 0)) (io c1)) |})).
    cbv beta iota. rewrite exec_halted by reflexivity.
    repeat split; reflexivity.
Qed.

Lemma for_product_ignores_rate (r : Z) (cfg : Config) (ps : list Dict) :
  forall (t : Z * Z) (st : State W),
  products_loop (with_rate_limit r cfg) ps t st = products_loop cfg ps t st.
Proof.
  induction ps as [| p ps IH]; intros t st; cbn [for_product].
  - reflexivity.
  - unfold bind. change (send (with_rate_limit r cfg) p st) with (send cfg p st).
    destruct (send cfg p st) as [[b | e] st1]; [apply IH | reflexivity].
Qed.

Lemma for_subcategory_ignores_rate (r : Z) (cfg : Config) (cs : list string) :
  forall (t : Z * Z) (st : State W),
  categories_loop (with_rate_limit r cfg) cs t st = categories_loop cfg cs t st.
Proof.
  induction cs as [| sub cs IH]; intros t st.
  - reflexivity.
  - rewrite !for_subcategory_cons.
    destruct ((print (Log_processing sub) ;; aggregate sub) st)
      as [[ps | e] st1]; [| reflexivity].
    rewrite for_product_ignores_rate.
    destruct (products_loop cfg ps t st1) as [[t' | e] st2];
      [apply IH | reflexivity].
Qed.

Lemma step_ignores_rate (r : Z) (cfg : Config) (c : config W) :
  step1 (with_rate_limit r cfg) c = step1 cfg c.
Proof. reflexivity. Qed.

(** C8.  Replacing [RATE_LIMIT_PER_MINUTE] by any other number changes
    nothing: [send_to_webhook] returns the same result in the same state,
    [main] ends the same way in the same state (same log, same POST
    calls, same summary), and the stepped run takes the same steps
    through the same configurations. *)
Theorem rate_limit_ignored (r : Z) (cfg : Config) (st : State W) :
  (forall p, send (with_rate_limit r cfg) p st = send cfg p st) /\
  run_main (with_rate_limit r cfg) st = run_main cfg st /\
  forall n, steps (with_rate_limit r cfg) n (start st)
            = steps cfg n (start st).
Proof.
  split; [reflexivity |]. split.
  - rewrite !main_paths.
    cbn [SUBCATEGORIES GMAIL_ACCOUNT with_rate_limit].
    now rewrite for_subcategory_ignores_rate.
  - intros n. generalize (start st). induction n as [| n IH]; intros c.
    + reflexivity.
    + cbn [exec]. rewrite step_ignores_rate.
      destruct (step1 cfg c) as [[l c'] |]; [| reflexivity].
      now rewrite IH.
Qed.

End Properties.

(** * The properties on the scripted world *)

(** The sink on the first demo product. *)
Lemma send_to_webhook_true_iff_200_and_logged_witness :
  exists b st',
    send_to_webhook Demo.clock Demo.endpoint Demo.utf8 Demo.cfg Demo.vest
      Demo.fresh = (Ok b, st') /\
    (b = true <->
     exists now w1 r w2,
       Demo.clock (world Demo.fresh) = (Ok now, w1) /\
       Demo.endpoint
         {| url := WEBHOOK_URL Demo.cfg;
            json := PDict (payload Demo.cfg (isoformat now) Demo.vest);
            timeout := SCRAPE_TIMEOUT Demo.cfg |} w1 = (Ok r, w2) /\
       status_code r = 200%Z /\
       print_failure Demo.utf8 (dict_get "name" Demo.vest) = None).
Proof.
  exact (send_to_webhook_true_iff_200_and_logged
           Demo.clock Demo.endpoint Demo.utf8 Demo.cfg Demo.vest Demo.fresh).
Defined.

(** The endpoint answers 200, the standard output takes ASCII only and
    the name is not ASCII: the answer is [False]. *)
Lemma send_to_webhook_200_but_false :
  Demo.accepting
    {| url := WEBHOOK_URL Demo.cfg;
       json := PDict (payload Demo.cfg (isoformat Demo.noon) Demo.beret);
       timeout := SCRAPE_TIMEOUT Demo.cfg |} 0
    = (Ok {| status_code := 200 |}, 1) /\
  send_to_webhook Demo.clock Demo.accepting Demo.ascii_only Demo.cfg
    Demo.beret Demo.fresh
  = (Ok false,
     {| world := 1;
        stdout := [Log_failed_to_send "'ascii' codec can't encode character"];
        post_calls :=
          [ {| url := WEBHOOK_URL Demo.cfg;
               json := PDict (payload Demo.cfg (isoformat Demo.noon)
                                Demo.beret);
               timeout := SCRAPE_TIMEOUT Demo.cfg |} ] |}).
Proof. split; reflexivity. Qed.

(** The demo clock reading is within range; its ISO form. *)
Lemma envelope_fields_witness :
  in_range Demo.noon /\
  parse_isoformat (isoformat Demo.noon) = Some Demo.noon /\
  isoformat Demo.noon = "2024-03-05T12:00:09" /\
  field 4 2024 "2024" /\
  post_calls
    (snd (send_to_webhook Demo.clock Demo.endpoint Demo.utf8 Demo.cfg
            Demo.vest Demo.fresh))
  = [ {| url := WEBHOOK_URL Demo.cfg;
         json := PDict [ ("source", PStr "colab");
                         ("gmail_account", PStr "jeantrail1001@gmail.com");
                         ("timestamp", PStr "2024-03-05T12:00:09");
                         ("product", PDict Demo.vest) ];
         timeout := 30 |} ].
Proof.
  assert (Hrange : in_range Demo.noon)
    by (unfold in_range, Demo.noon;
        cbn [year month day hour minute second microsecond];
        repeat split; try lia;
        [apply Nat.ltb_lt; vm_compute; reflexivity
        | apply Nat.neq_0_lt_0, Nat.pow_nonzero; discriminate]).
  destruct (envelope_fields Demo.clock Demo.endpoint Demo.utf8 Demo.cfg
              Demo.vest Demo.fresh) as (Hpost & Hread & Hform).
  pose proof (Hform Demo.noon Hrange) as (_ & Hyear & _).
  split; [exact Hrange |]. split; [exact (Hread Demo.noon) |].
  split; [reflexivity |]. split; [exact Hyear |]. exact Hpost.
Defined.

(** Both demo adapters on ["Vests"]: two records, then one. *)
Lemma all_products_is_concatenation_witness :
  Demo.alibaba "Vests" Demo.fresh
    = (Ok [Demo.vest; Demo.waistcoat], Demo.fresh) /\
  Demo.s1688 "Vests" Demo.fresh = (Ok [Demo.gilet], Demo.fresh) /\
  exists l,
    all_products Demo.alibaba Demo.s1688 "Vests" Demo.fresh
      = (Ok l, Demo.fresh) /\
    l = [Demo.vest; Demo.waistcoat] ++ [Demo.gilet] /\
    List.length l = 2 + 1 /\
    (forall i, i < 2 -> nth_error l i
                        = nth_error [Demo.vest; Demo.waistcoat] i) /\
    (forall j, nth_error l (2 + j) = nth_error [Demo.gilet] j).
Proof.
  split; [reflexivity |]. split; [reflexivity |].
  apply (all_products_is_concatenation
           Demo.alibaba Demo.s1688 "Vests" Demo.fresh Demo.fresh Demo.fresh
           [Demo.vest; Demo.waistcoat] [Demo.gilet]); reflexivity.
Defined.

(** The counters after five steps of the demo run, one delivery into the inner loop. *)
Lemma counters_invariant_witness :
  Demo.run 7 = (Demo.trace, snd (Demo.run 7)) /\
  halted (snd (Demo.run 7)) = true /\
  ctl (snd (Demo.run 7)) = Complete /\
  (total_sent (snd (Demo.run 7)) + total_failed (snd (Demo.run 7)))%Z
    = Z.of_nat (sink_invocations Demo.trace) /\
  main Demo.clock Demo.endpoint Demo.utf8 Demo.alibaba Demo.s1688 Demo.cfg
    Demo.fresh = (Ok tt, io (snd (Demo.run 7))) /\
  final_summary
    (snd (main Demo.clock Demo.endpoint Demo.utf8 Demo.alibaba Demo.s1688
            Demo.cfg Demo.fresh))
    = Some (total_sent (snd (Demo.run 7)), total_failed (snd (Demo.run 7))).
Proof.
  split; [reflexivity |]. split; [reflexivity |]. split; [reflexivity |].
  destruct (counters_invariant Demo.clock Demo.endpoint Demo.utf8
              Demo.alibaba Demo.s1688 Demo.cfg Demo.fresh 7 Demo.trace
              (snd (Demo.run 7)) eq_refl)
    as ((_ & _ & Hsum & _) & Hhalt & _).
  split; [exact Hsum |].
  exact (proj2 (Hhalt eq_refl) eq_refl).
Defined.

(** The completed demo run: three records, two accepted. *)
Lemma summary_counts_witness :
  Demo.run 7 = (Demo.trace, snd (Demo.run 7)) /\
  ctl (snd (Demo.run 7)) = Complete /\
  main Demo.clock Demo.endpoint Demo.utf8 Demo.alibaba Demo.s1688 Demo.cfg Demo.fresh
    = (Ok tt, io (snd (Demo.run 7))) /\
  List.length (sink_results Demo.trace) = List.length (discovered Demo.trace) /\
  final_summary (io (snd (Demo.run 7)))
    = Some (Z.of_nat (successes (sink_results Demo.trace)),
            Z.of_nat (failures (sink_results Demo.trace))) /\
  successes (sink_results Demo.trace) + failures (sink_results Demo.trace)
    = List.length (discovered Demo.trace) /\
  (forallb (fun b => b) (sink_results Demo.trace) = true ->
   successes (sink_results Demo.trace) = List.length (discovered Demo.trace) /\
   failures (sink_results Demo.trace) = 0) /\
  (forallb negb (sink_results Demo.trace) = true ->
   failures (sink_results Demo.trace) = List.length (discovered Demo.trace) /\
   successes (sink_results Demo.trace) = 0).
Proof.
  split; [reflexivity |]. split; [reflexivity |].
  apply (summary_counts Demo.clock Demo.endpoint Demo.utf8 Demo.alibaba Demo.s1688
           Demo.cfg Demo.fresh 7 Demo.trace (snd (Demo.run 7)));
    reflexivity.
Defined.

(** The completed demo run visits both subcategories and sends the three records in order. *)
Lemma records_attempted_in_order_witness :
  Demo.run 7 = (Demo.trace, snd (Demo.run 7)) /\
  halted (snd (Demo.run 7)) = true /\
  (outline Demo.trace ++ map Visit_send (pending (snd (Demo.run 7)))
     = planned (visits Demo.trace) /\
   List.length (sink_results Demo.trace) = sink_invocations Demo.trace /\
   map fst (visits Demo.trace) = SUBCATEGORIES Demo.cfg) /\
  io (snd (Demo.run 7))
    = snd (main Demo.clock Demo.endpoint Demo.utf8 Demo.alibaba Demo.s1688
             Demo.cfg Demo.fresh) /\
  ctl (snd (Demo.run 7)) = Complete.
Proof.
  split; [reflexivity |]. split; [reflexivity |].
  destruct (records_attempted_in_order Demo.clock Demo.endpoint Demo.utf8
              Demo.alibaba Demo.s1688 Demo.cfg Demo.fresh)
    as ((_ & Hshape) & Hmain & _).
  split; [exact (Hshape 7 Demo.trace (snd (Demo.run 7)) eq_refl) |].
  exact (Hmain 7 Demo.trace (snd (Demo.run 7)) eq_refl eq_refl).
Defined.


(** The 1688 demo adapter raises on the second subcategory of the template configuration. *)
Lemma adapter_exception_propagates_witness :
  SUBCATEGORIES template_config = ["Bermuda Shorts"] ++ "Cravats" :: ["Vests"] /\
  Demo.alibaba "Cravats" Demo.at_cravats = (Ok [], Demo.at_cravats) /\
  Demo.s1688 "Cravats" Demo.at_cravats = (Raise Demo.blocked, Demo.at_cravats) /\
  main Demo.clock Demo.endpoint Demo.utf8 Demo.alibaba Demo.s1688 template_config
    Demo.fresh = (Raise Demo.blocked, Demo.at_cravats) /\
  exists n tr c,
    exec Demo.clock Demo.endpoint Demo.utf8 Demo.alibaba Demo.s1688 template_config n
      (start Demo.fresh) = (tr, c) /\
    ctl c = Crashed Demo.blocked /\ io c = Demo.at_cravats /\
    step Demo.clock Demo.endpoint Demo.utf8 Demo.alibaba Demo.s1688 template_config c
      = None.
Proof.
  split; [reflexivity |]. split; [reflexivity |]. split; [reflexivity |].
  apply (adapter_exception_propagates
           Demo.clock Demo.endpoint Demo.utf8 Demo.alibaba Demo.s1688
           template_config Demo.fresh ["Bermuda Shorts"] ["Vests"] "Cravats"
           (0%Z, 0%Z) Demo.before_cravats Demo.at_cravats Demo.blocked).
  - reflexivity.
  - reflexivity.
  - right. exists [], Demo.at_cravats. split; reflexivity.
Defined.

(** The demo configuration without subcategories. *)
Lemma empty_subcategories_witness :
  SUBCATEGORIES Demo.empty_cfg = [] /\
  main Demo.clock Demo.endpoint Demo.utf8 Demo.alibaba Demo.s1688 Demo.empty_cfg
    Demo.fresh
  = (Ok tt,
     {| world := 0;
        stdout := [ Log_start "jeantrail1001@gmail.com";
                    Log_subcategories "";
                    Log_complete;
                    Log_stats 0 0 ];
        post_calls := [] |}).
Proof.
  split; [reflexivity |].
  exact (proj1 (empty_subcategories
                  Demo.clock Demo.endpoint Demo.utf8 Demo.alibaba Demo.s1688
                  Demo.empty_cfg Demo.fresh eq_refl)).
Defined.

(** * Sample runs *)

Example isoformat_whole_second :
  isoformat Demo.noon = "2024-03-05T12:00:09".
Proof. reflexivity. Qed.

Example isoformat_microseconds :
  isoformat {| year := 987; month := 12; day := 31; hour := 23;
               minute := 59; second := 0; microsecond := 4200 |}
  = "0987-12-31T23:59:00.004200".
Proof. reflexivity. Qed.

(** The template as shipped: the placeholders find nothing, so nothing is
    posted. *)
Example template_as_shipped :
  main Demo.clock Demo.accepting Demo.utf8
    scrape_alibaba_products scrape_1688_products template_config Demo.fresh
  = (Ok tt,
     {| world := 0;
        stdout := [ Log_start "jeantrail1001@gmail.com";
                    Log_subcategories "Bermuda Shorts, Cravats, Vests";
                    Log_processing "Bermuda Shorts";
                    Log_scraping_alibaba "Bermuda Shorts";
                    Log_scraping_1688 "Bermuda Shorts";
                    Log_processing "Cravats";
                    Log_scraping_alibaba "Cravats";
                    Log_scraping_1688 "Cravats";
                    Log_processing "Vests";
                    Log_scraping_alibaba "Vests";
                    Log_scraping_1688 "Vests";
                    Log_complete;
                    Log_stats 0 0 ];
        post_calls := [] |}).
Proof. reflexivity. Qed.

(** Two records, an endpoint that always answers 200. *)
Example two_records_accepted :
  final_summary
    (snd (main Demo.clock Demo.accepting Demo.utf8 Demo.alibaba scrape_1688_products
            (Demo.only "Vests") Demo.fresh))
  = Some (2%Z, 0%Z).
Proof. reflexivity. Qed.

(** One record, an endpoint that answers 503. *)
Example one_record_unavailable :
  final_summary
    (snd (main Demo.clock Demo.unavailable Demo.utf8 scrape_alibaba_products Demo.s1688
            (Demo.only "Vests") Demo.fresh))
  = Some (0%Z, 1%Z).
Proof. reflexivity. Qed.

(** A refused connection and an unreadable clock both count as failures;
    with the clock unreadable no request is made at all. *)
Example connection_refused :
  send_to_webhook Demo.clock Demo.refusing Demo.utf8 Demo.cfg Demo.vest Demo.fresh
  = (Ok false,
     {| world := 1;
        stdout := [Log_failed_to_send "connection refused"];
        post_calls :=
          [ {| url := WEBHOOK_URL Demo.cfg;
               json := PDict [ ("source", PStr "colab");
                               ("gmail_account", PStr "jeantrail1001@gmail.com");
                               ("timestamp", PStr "2024-03-05T12:00:09");
                               ("product", PDict Demo.vest) ];
               timeout := 30 |} ] |}).
Proof. reflexivity. Qed.

Example clock_unreadable :
  send_to_webhook Demo.stopped Demo.accepting Demo.utf8 Demo.cfg Demo.vest Demo.fresh
  = (Ok false,
     {| world := 0;
        stdout := [Log_failed_to_send "datetime.utcnow() is deprecated"];
        post_calls := [] |}).
Proof. reflexivity. Qed.

(** The run on [Demo.cfg], step by step. *)
Example demo_trace : fst (Demo.run 7) = Demo.trace.
Proof. reflexivity. Qed.

Example demo_summary :
  final_summary (io (snd (Demo.run 7))) = Some (2%Z, 1%Z).
Proof. reflexivity. Qed.

(** * Further properties of the delivery loop *)

Section Delivery_loop.

Context {W : Type}.
Variable utcnow : W -> Result datetime * W.
Variable requests_post : request -> W -> Result response * W.
Variable unencodable : pyval -> option exception.

Local Abbreviation send := (send_to_webhook utcnow requests_post unencodable).
Local Abbreviation products_loop := (for_product utcnow requests_post unencodable).

(** One call of the sink: its result, the one line it prints and the
    requests it makes (none when the clock raises, one otherwise). *)
Lemma send_effect (cfg : Config) (p : Dict) (st : State W) :
  exists b w l reqs,
    send cfg p st
      = (Ok b, {| world := w; stdout := stdout st ++ [l];
                  post_calls := post_calls st ++ reqs |}) /\
    delivery_line l = Some b /\
    ((reqs = [] /\ exists e w1, utcnow (world st) = (Raise e, w1)) \/
     exists now w1,
       utcnow (world st) = (Ok now, w1) /\
       reqs = [ {| url := WEBHOOK_URL cfg;
                   json := PDict (payload cfg (isoformat now) p);
                   timeout := SCRAPE_TIMEOUT cfg |} ]).
Proof.
  rewrite send_to_webhook_paths.
  destruct (utcnow (world st)) as [[now | e] w1].
  - cbv zeta.
    destruct (requests_post _ w1) as [[r | e] w2];
      [destruct (status_code r =? 200)%Z;
       [destruct (print_failure unencodable (dict_get "name" p)) |] |];
      do 4 eexists; (split; [reflexivity |]); (split; [reflexivity |]);
      right; eauto.
  - exists false, w1, (Log_failed_to_send (exc_str e)), [].
    rewrite app_nil_r. split; [reflexivity |]. split; [reflexivity |].
    left. eauto.
Qed.

(** X2.  Every call of [send_to_webhook] prints exactly one line, and the
    line tells the result: a success line, carrying [product.get('name')],
    with [True]; with [False] either the status code received, which is
    not 200, or the text of the exception that was caught: one raised by
    the clock, one raised by the POST, or, after an answer of 200, the
    one raised by printing the success line. *)
Theorem send_to_webhook_logs_outcome
  (cfg : Config) (p : Dict) (st : State W) :
  exists b st' l,
    send cfg p st = (Ok b, st') /\
    stdout st' = stdout st ++ [l] /\
    delivery_line l = Some b /\
    match l with
    | Log_success name =>
        name = dict_get "name" p /\ print_failure unencodable name = None
    | Log_webhook_returned code => code <> 200%Z
    | Log_failed_to_send message =>
        exists e,
          message = exc_str e /\
          ((exists w1, utcnow (world st) = (Raise e, w1)) \/
           (exists now w1 w2,
              utcnow (world st) = (Ok now, w1) /\
              requests_post
                {| url := WEBHOOK_URL cfg;
                   json := PDict (payload cfg (isoformat now) p);
                   timeout := SCRAPE_TIMEOUT cfg |} w1 = (Raise e, w2)) \/
           (exists now w1 r w2,
              utcnow (world st) = (Ok now, w1) /\
              requests_post
                {| url := WEBHOOK_URL cfg;
                   json := PDict (payload cfg (isoformat now) p);
                   timeout := SCRAPE_TIMEOUT cfg |} w1 = (Ok r, w2) /\
              status_code r = 200%Z /\
              print_failure unencodable (dict_get "name" p) = Some e))
    | _ => False
    end.
Proof.
  rewrite send_to_webhook_paths.
  destruct (utcnow (world st)) as [[now | e] w1] eqn:Hclock.
  - cbv zeta.
    destruct (requests_post _ w1) as [[r | e] w2] eqn:Hpost.
    + destruct (Z.eqb_spec (status_code r) 200) as [H200 | Hother].
      * destruct (print_failure unencodable (dict_get "name" p)) eqn:Hprint.
        -- do 3 eexists. split; [reflexivity |]. split; [reflexivity |].
           split; [reflexivity |].
           exists e. split; [reflexivity |]. right. right.
           now exists now, w1, r, w2.
        -- do 3 eexists. repeat split; assumption.
      * do 3 eexists. repeat split; assumption.
    + do 3 eexists. split; [reflexivity |]. split; [reflexivity |].
      split; [reflexivity |].
      exists e. split; [reflexivity |]. right. left. now exists now, w1, w2.
  - do 3 eexists. split; [reflexivity |]. split; [reflexivity |].
    split; [reflexivity |].
    exists e. split; [reflexivity |]. left. now exists w1.
Qed.

(** X3.  A product that has no [name] key is sent like any other: when
    the endpoint answers 200 the call returns [True], and the success
    line shows [None] in place of the name. *)
Theorem send_to_webhook_without_name
  (cfg : Config) (p : Dict) (st : State W)
  (now : datetime) (w1 w2 : W) (r : response) :
  dict_lookup "name" p = None ->
  utcnow (world st) = (Ok now, w1) ->
  requests_post
    {| url := WEBHOOK_URL cfg;
       json := PDict (payload cfg (isoformat now) p);
       timeout := SCRAPE_TIMEOUT cfg |} w1 = (Ok r, w2) ->
  status_code r = 200%Z ->
  send cfg p st
  = (Ok true,
     {| world := w2;
        stdout := stdout st ++ [Log_success PNone];
        post_calls :=
          post_calls st ++
          [ {| url := WEBHOOK_URL cfg;
               json := PDict (payload cfg (isoformat now) p);
               timeout := SCRAPE_TIMEOUT cfg |} ] |}).
Proof.
  intros Hname Hclock Hpost H200.
  rewrite send_to_webhook_paths, Hclock. cbv zeta. rewrite Hpost, H200.
  unfold dict_get. rewrite Hname. reflexivity.
Qed.

(** X4.  The inner loop never sends a product twice.  The requests it
    makes carry, in order, a subsequence of its list of products: each
    product is posted at most once, at its place in the list, and a
    product is left out only when the clock could not be read for it.
    Every request goes to [WEBHOOK_URL] with [SCRAPE_TIMEOUT]. *)
Theorem for_product_sends_at_most_once
  (cfg : Config) (ps : list Dict) (t : Z * Z) (st : State W) :
  exists reqs sent,
    post_calls (snd (products_loop cfg ps t st)) = post_calls st ++ reqs /\
    subsequence sent ps /\
    map body_product reqs = map (fun p => Some (PDict p)) sent /\
    Forall (fun rq =>
              url rq = WEBHOOK_URL cfg /\
              timeout rq = SCRAPE_TIMEOUT cfg) reqs.
Proof.
  revert t st. induction ps as [| p ps IH]; intros t st; cbn [for_product].
  - exists [], []. rewrite app_nil_r. repeat split; constructor.
  - unfold bind.
    destruct (send_effect cfg p st) as (b & w & l & reqs & Hsend & _ & Hreqs).
    rewrite Hsend.
    destruct (IH (tally b t)
                {| world := w; stdout := stdout st ++ [l];
                   post_calls := post_calls st ++ reqs |})
      as (more & sent & Hposts & Hsub & Hbodies & Hall).
    rewrite Hposts. cbn [post_calls]. rewrite <- app_assoc.
    destruct Hreqs as [[-> _] | (now & w1 & _ & ->)].
    + exists more, sent. repeat split; try assumption. now constructor.
    + eexists (_ :: more), (p :: sent). split; [reflexivity |].
      split; [now constructor |]. split.
      * cbn [map]. now rewrite Hbodies.
      * constructor; [split; reflexivity | exact Hall].
Qed.

(** X5.  When the clock can always be read, the inner loop makes exactly
    one request per product, in list order, each carrying its product
    under the key [product]; this holds whatever the endpoint answers. *)
Theorem for_product_sends_each_once
  (cfg : Config) (ps : list Dict) (t : Z * Z) (st : State W) :
  (forall w, exists now w', utcnow w = (Ok now, w')) ->
  exists reqs,
    post_calls (snd (products_loop cfg ps t st)) = post_calls st ++ reqs /\
    map body_product reqs = map (fun p => Some (PDict p)) ps.
Proof.
  intros Hclock. revert t st.
  induction ps as [| p ps IH]; intros t st; cbn [for_product].
  - exists []. now rewrite app_nil_r.
  - unfold bind.
    destruct (send_effect cfg p st) as (b & w & l & reqs & Hsend & _ & Hreqs).
    rewrite Hsend.
    destruct (IH (tally b t)
                {| world := w; stdout := stdout st ++ [l];
                   post_calls := post_calls st ++ reqs |})
      as (more & Hposts & Hbodies).
    exists (reqs ++ more). rewrite Hposts. cbn [post_calls].
    rewrite <- app_assoc. split; [reflexivity |].
    destruct Hreqs as [[_ (e & w1 & Hraise)] | (now & w1 & _ & ->)].
    + destruct (Hclock (world st)) as (now & w' & Hok).
      rewrite Hok in Hraise. discriminate.
    + cbn [map app]. now rewrite Hbodies.
Qed.

(** X6.  The log of the inner loop can be recounted: it prints exactly
    one delivery line per product, and the totals it returns are the
    totals it started from plus the number of success lines and the
    number of failure lines.  It never raises. *)
Theorem for_product_log_matches_totals
  (cfg : Config) (ps : list Dict) (s f : Z) (st : State W) :
  exists lines results st',
    products_loop cfg ps (s, f) st
      = (Ok ((s + Z.of_nat (successes results))%Z,
             (f + Z.of_nat (failures results))%Z), st') /\
    stdout st' = stdout st ++ lines /\
    map delivery_line lines = map Some results /\
    List.length results = List.length ps.
Proof.
  revert s f st. induction ps as [| p ps IH]; intros s f st;
    cbn [for_product].
  - exists [], [], st. unfold ret, successes, failures. cbn.
    rewrite !Z.add_0_r, app_nil_r. repeat split.
  - unfold bind.
    destruct (send_effect cfg p st) as (b & w & l & reqs & Hsend & Hline & _).
    rewrite Hsend.
    destruct (IH (fst (tally b (s, f))) (snd (tally b (s, f)))
                {| world := w; stdout := stdout st ++ [l];
                   post_calls := post_calls st ++ reqs |})
      as (lines & results & st' & Hloop & Hout & Hlines & Hlen).
    exists (l :: lines), (b :: results), st'.
    rewrite <- surjective_pairing in Hloop. rewrite Hloop.
    split; [| split; [| split]].
    + unfold tally, successes, failures. f_equal. f_equal.
      destruct b; cbn [fst snd count_occ];
        repeat (destruct (Bool.bool_dec _ _); try discriminate;
                try contradiction);
        f_equal; lia.
    + rewrite Hout. cbn [stdout]. now rewrite <- app_assoc.
    + cbn [map]. now rewrite Hline, Hlines.
    + cbn [List.length]. now rewrite Hlen.
Qed.

(** X8.  The counters do not steer the loop: started from other totals,
    it ends in the same state, having printed and sent the same, and
    returns totals shifted by the same amounts. *)
Theorem for_product_totals_shift
  (cfg : Config) (ps : list Dict) (s f a b : Z) (st : State W) :
  products_loop cfg ps ((s + a)%Z, (f + b)%Z) st =
  match products_loop cfg ps (a, b) st with
  | (Ok (a', b'), st') => (Ok ((s + a')%Z, (f + b')%Z), st')
  | (Raise e, st') => (Raise e, st')
  end.
Proof.
  revert a b st. induction ps as [| p ps IH]; intros a b st;
    cbn [for_product].
  - reflexivity.
  - unfold bind. destruct (send cfg p st) as [[ok | e] st1]; [| reflexivity].
    destruct ok; cbn [tally].
    + rewrite <- Z.add_assoc. apply IH.
    + rewrite <- Z.add_assoc. apply IH.
Qed.

(** X9.  Sending a list in two parts is the same as sending it whole:
    the loop over [ps1 ++ ps2] is the loop over [ps1] followed by the
    loop over [ps2], started from the totals and the state the first one
    ended with. *)
Theorem for_product_app
  (cfg : Config) (ps1 ps2 : list Dict) (t : Z * Z) (st : State W) :
  products_loop cfg (ps1 ++ ps2) t st =
  match products_loop cfg ps1 t st with
  | (Ok t1, st1) => products_loop cfg ps2 t1 st1
  | (Raise e, st1) => (Raise e, st1)
  end.
Proof.
  revert t st. induction ps1 as [| p ps1 IH]; intros t st.
  - reflexivity.
  - cbn [app for_product]. unfold bind.
    destruct (send cfg p st) as [[ok | e] st1]; [apply IH | reflexivity].
Qed.

End Delivery_loop.

(** * Further properties of whole runs *)

Section Whole_runs.

Context {W : Type}.
Variable utcnow : W -> Result datetime * W.
Variable requests_post : request -> W -> Result response * W.
Variable unencodable : pyval -> option exception.

Local Abbreviation products_loop := (for_product utcnow requests_post unencodable).

Lemma placeholders_loop (cfg : Config) (cats : list string) :
  forall (t : Z * Z) (st : State W),
  for_subcategory utcnow requests_post unencodable
    scrape_alibaba_products scrape_1688_products cfg cats t st
  = (Ok t, {| world := world st;
              stdout := stdout st ++ placeholder_log cats;
              post_calls := post_calls st |}).
Proof.
  induction cats as [| sub cats IH]; intros t st.
  - destruct st as [w out posts]. cbn. now rewrite app_nil_r.
  - rewrite for_subcategory_cons.
    change (bind (print (Log_processing sub))
              (fun _ => all_products scrape_alibaba_products
                          scrape_1688_products sub) st)
      with (@Ok (list Dict) [],
            {| world := world st;
               stdout := ((stdout st ++ [Log_processing sub])
                          ++ [Log_scraping_alibaba sub])
                         ++ [Log_scraping_1688 sub];
               post_calls := post_calls st |}).
    cbn [for_product]. unfold ret. rewrite IH.
    cbn [world stdout post_calls placeholder_log flat_map].
    now rewrite <- !app_assoc.
Qed.

(** X1.  The template as it stands sends nothing: with its own two
    placeholder adapters, whatever the configuration, the state and the
    endpoint, [main] returns without an exception, makes no request,
    leaves the outside world alone, and prints the header, three lines
    per subcategory, and the summary [0, 0]. *)
Theorem placeholders_send_nothing (cfg : Config) (st : State W) :
  main utcnow requests_post unencodable scrape_alibaba_products scrape_1688_products
    cfg st
  = (Ok tt,
     {| world := world st;
        stdout :=
          stdout st
          ++ [ Log_start (GMAIL_ACCOUNT cfg);
               Log_subcategories (String.concat ", " (SUBCATEGORIES cfg)) ]
          ++ placeholder_log (SUBCATEGORIES cfg)
          ++ [ Log_complete; Log_stats 0 0 ];
        post_calls := post_calls st |}).
Proof.
  rewrite main_paths, placeholders_loop.
  cbn [world stdout post_calls fst snd].
  now rewrite <- !app_assoc.
Qed.

Variable scrape_alibaba : string -> M W (list Dict).
Variable scrape_1688 : string -> M W (list Dict).

Local Abbreviation categories_loop :=
  (for_subcategory utcnow requests_post unencodable scrape_alibaba scrape_1688).

Lemma for_product_grows (cfg : Config) (ps : list Dict) :
  forall (s f : Z) (st : State W),
  exists s' f' st',
    products_loop cfg ps (s, f) st = (Ok (s', f'), st') /\
    (s <= s')%Z /\ (f <= f')%Z.
Proof.
  induction ps as [| p ps IH]; intros s f st; cbn [for_product].
  - exists s, f, st. unfold ret. repeat split; lia.
  - unfold bind.
    destruct (send_to_webhook_returns utcnow requests_post unencodable cfg p st)
      as (b & st1 & Hsend).
    rewrite Hsend.
    destruct b; cbn [tally];
      [destruct (IH (s + 1)%Z f st1) as (s' & f' & st' & Hloop & Hs & Hf)
      | destruct (IH s (f + 1)%Z st1) as (s' & f' & st' & Hloop & Hs & Hf)];
      exists s', f', st'; repeat split; try assumption; lia.
Qed.

Lemma for_subcategory_returns (cfg : Config) (cats : list string) :
  (forall s st, exists l st', scrape_alibaba s st = (Ok l, st')) ->
  (forall s st, exists l st', scrape_1688 s st = (Ok l, st')) ->
  forall (s f : Z) (st : State W),
  exists s' f' st',
    categories_loop cfg cats (s, f) st = (Ok (s', f'), st') /\
    (s <= s')%Z /\ (f <= f')%Z.
Proof.
  intros Ha Hb. induction cats as [| sub cats IH]; intros s f st.
  - exists s, f, st. repeat split; lia.
  - rewrite for_subcategory_cons.
    unfold bind at 1. unfold print at 1. rewrite all_products_paths.
    cbn [world stdout post_calls].
    destruct (Ha sub {| world := world st;
                        stdout := stdout st ++ [Log_processing sub];
                        post_calls := post_calls st |})
      as (la & st1 & Hla).
    rewrite Hla.
    destruct (Hb sub st1) as (lb & st2 & Hlb). rewrite Hlb.
    destruct (for_product_grows cfg (la ++ lb) s f st2)
      as (s1 & f1 & st3 & Hloop & Hs1 & Hf1).
    rewrite Hloop.
    destruct (IH s1 f1 st3) as (s' & f' & st' & Hrest & Hs & Hf).
    exists s', f', st'. repeat split; try assumption; lia.
Qed.

(** X7.  If neither adapter ever raises, [main] never raises either: it
    returns, and the last line it has printed is a summary with two
    non-negative counters, whatever the endpoint does. *)
Theorem main_completes_when_adapters_return (cfg : Config) (st : State W) :
  (forall s st, exists l st', scrape_alibaba s st = (Ok l, st')) ->
  (forall s st, exists l st', scrape_1688 s st = (Ok l, st')) ->
  exists st' sent failed,
    main utcnow requests_post unencodable scrape_alibaba scrape_1688 cfg st
      = (Ok tt, st') /\
    final_summary st' = Some (sent, failed) /\
    (0 <= sent)%Z /\ (0 <= failed)%Z.
Proof.
  intros Ha Hb. rewrite main_paths.
  destruct (for_subcategory_returns cfg (SUBCATEGORIES cfg) Ha Hb 0 0
              {| world := world st;
                 stdout := (stdout st ++ [Log_start (GMAIL_ACCOUNT cfg)])
                           ++ [Log_subcategories
                                 (String.concat ", " (SUBCATEGORIES cfg))];
                 post_calls := post_calls st |})
    as (s' & f' & st' & Hloop & Hs & Hf).
  rewrite Hloop. do 3 eexists. split; [reflexivity |].
  split; [| split; [exact Hs | exact Hf]].
  unfold final_summary. cbn [stdout fst snd]. now rewrite rev_app_distr.
Qed.

End Whole_runs.

(** A nameless product, accepted. *)
Lemma send_to_webhook_without_name_witness :
  dict_lookup "name" Demo.gilet = None /\
  Demo.clock (world Demo.fresh) = (Ok Demo.noon, 0) /\
  Demo.accepting
    {| url := WEBHOOK_URL Demo.cfg;
       json := PDict (payload Demo.cfg (isoformat Demo.noon) Demo.gilet);
       timeout := SCRAPE_TIMEOUT Demo.cfg |} 0
    = (Ok {| status_code := 200 |}, 1) /\
  send_to_webhook Demo.clock Demo.accepting Demo.utf8 Demo.cfg Demo.gilet Demo.fresh
  = (Ok true,
     {| world := 1;
        stdout := stdout Demo.fresh ++ [Log_success PNone];
        post_calls :=
          post_calls Demo.fresh ++
          [ {| url := WEBHOOK_URL Demo.cfg;
               json := PDict (payload Demo.cfg (isoformat Demo.noon)
                                Demo.gilet);
               timeout := SCRAPE_TIMEOUT Demo.cfg |} ] |}).
Proof.
  split; [reflexivity |]. split; [reflexivity |]. split; [reflexivity |].
  apply (send_to_webhook_without_name Demo.clock Demo.accepting Demo.utf8
           Demo.cfg Demo.gilet Demo.fresh Demo.noon 0 1
           {| status_code := 200 |}); reflexivity.
Defined.

(** The demo clock can always be read; three products, three requests. *)
Lemma for_product_sends_each_once_witness :
  (forall w, exists now w', Demo.clock w = (Ok now, w')) /\
  exists reqs,
    post_calls
      (snd (for_product Demo.clock Demo.endpoint Demo.utf8 Demo.cfg
              [Demo.vest; Demo.waistcoat; Demo.gilet] (0%Z, 0%Z) Demo.fresh))
      = post_calls Demo.fresh ++ reqs /\
    map body_product reqs
      = map (fun p => Some (PDict p)) [Demo.vest; Demo.waistcoat; Demo.gilet].
Proof.
  assert (Hclock : forall w, exists now w', Demo.clock w = (Ok now, w'))
    by (intros w; exists Demo.noon, w; reflexivity).
  split; [exact Hclock |].
  exact (for_product_sends_each_once Demo.clock Demo.endpoint Demo.utf8 Demo.cfg
           [Demo.vest; Demo.waistcoat; Demo.gilet] (0%Z, 0%Z) Demo.fresh
           Hclock).
Defined.

(** The Alibaba demo adapter and the 1688 placeholder never raise. *)
Lemma main_completes_when_adapters_return_witness :
  (forall s st, exists l st', Demo.alibaba s st = (Ok l, st')) /\
  (forall s (st : State nat),
     exists l st', scrape_1688_products s st = (Ok l, st')) /\
  exists st' sent failed,
    main Demo.clock Demo.endpoint Demo.utf8 Demo.alibaba scrape_1688_products
      Demo.cfg Demo.fresh = (Ok tt, st') /\
    final_summary st' = Some (sent, failed) /\
    (0 <= sent)%Z /\ (0 <= failed)%Z.
Proof.
  assert (Ha : forall s st, exists l st', Demo.alibaba s st = (Ok l, st')).
  { intros s st. unfold Demo.alibaba.
    destruct (String.eqb s "Vests"); do 2 eexists; reflexivity. }
  assert (Hb : forall s (st : State nat),
             exists l st', scrape_1688_products s st = (Ok l, st')).
  { intros s st. do 2 eexists. reflexivity. }
  split; [exact Ha |]. split; [exact Hb |].
  exact (main_completes_when_adapters_return
           Demo.clock Demo.endpoint Demo.utf8 Demo.alibaba scrape_1688_products
           Demo.cfg Demo.fresh Ha Hb).
Defined.

(** * Records are passed on unchanged *)

Section Shared_properties.

Context {W : Type}.
Variable utcnow : W -> Result datetime * W.
Variable requests_post : request -> W -> Result response * W.
Variable unencodable : pyval -> option exception.

Local Abbreviation send_ref :=
  (send_to_webhook_ref utcnow requests_post unencodable).
Local Abbreviation loop_ref :=
  (for_product_ref utcnow requests_post unencodable).

(** On the record found at the reference, the sink on references does
    what the sink on values does. *)
Lemma send_to_webhook_ref_value
  (cfg : Config) (r : nat) (st : State (W * Store)) :
  send_ref cfg r st =
  send_to_webhook (utcnow_beside utcnow) (requests_post_beside requests_post)
    unencodable cfg (nth r (store_of st) []) st.
Proof.
  unfold send_to_webhook_ref, send_to_webhook, try_except, bind, deref,
    datetime_utcnow, post, utcnow_beside, requests_post_beside, store_of.
  cbn [world stdout post_calls fst snd].
  destruct st as [[w store] out posts]. cbn [world stdout post_calls fst snd].
  destruct (utcnow w) as [[now | e] w1]; cbn [world fst snd]; [| reflexivity].
  cbv zeta.
  destruct (requests_post
              {| url := WEBHOOK_URL cfg;
                 json := PDict (payload cfg (isoformat now) (nth r store []));
                 timeout := SCRAPE_TIMEOUT cfg |} w1) as [[resp | e] w2]; cbn [world fst snd]; [| reflexivity].
  destruct (status_code resp =? 200)%Z; reflexivity.
Qed.

(** The sink writes to no record. *)
Lemma send_to_webhook_ref_store
  (cfg : Config) (r : nat) (st : State (W * Store)) :
  store_of (snd (send_ref cfg r st)) = store_of st.
Proof.
  rewrite send_to_webhook_ref_value, send_to_webhook_paths.
  unfold utcnow_beside, requests_post_beside, store_of.
  destruct st as [[w store] out posts]. cbn [world fst snd].
  destruct (utcnow w) as [[now | e] w1]; [| reflexivity].
  cbv zeta. cbn [fst snd].
  destruct (requests_post
              {| url := WEBHOOK_URL cfg;
                 json := PDict (payload cfg (isoformat now) (nth r store []));
                 timeout := SCRAPE_TIMEOUT cfg |} w1) as [[resp | e] w2];
    [| reflexivity].
  destruct (status_code resp =? 200)%Z; [| reflexivity].
  now destruct (print_failure unencodable _).
Qed.

Lemma for_product_ref_store (cfg : Config) (ps : list nat) :
  forall (t : Z * Z) (st : State (W * Store)),
  store_of (snd (loop_ref cfg ps t st)) = store_of st.
Proof.
  induction ps as [| r ps IH]; intros t st; cbn [for_product_ref].
  - reflexivity.
  - unfold bind at 1.
    pose proof (send_to_webhook_ref_store cfg r st) as Hsend.
    destruct (send_ref cfg r st) as [[b | e] st1]; cbn [snd] in *.
    + now rewrite IH.
    + exact Hsend.
Qed.

Lemma for_product_ref_value (cfg : Config) (ps : list nat) :
  forall (t : Z * Z) (st : State (W * Store)),
  loop_ref cfg ps t st =
  for_product (utcnow_beside utcnow) (requests_post_beside requests_post)
    unencodable cfg (map (fun r => nth r (store_of st) []) ps) t st.
Proof.
  induction ps as [| r ps IH]; intros t st;
    cbn [for_product_ref for_product map].
  - reflexivity.
  - unfold bind. rewrite <- send_to_webhook_ref_value.
    pose proof (send_to_webhook_ref_store cfg r st) as Hstore.
    destruct (send_ref cfg r st) as [[b | e] st1]; cbn [snd] in Hstore;
      [| reflexivity].
    rewrite IH, Hstore. now destruct t, b.
Qed.

Variable scrape_alibaba_ref : string -> M (W * Store) (list nat).
Variable scrape_1688_ref : string -> M (W * Store) (list nat).

Local Abbreviation categories_ref :=
  (for_subcategory_ref utcnow requests_post unencodable
     scrape_alibaba_ref scrape_1688_ref).

Lemma for_subcategory_ref_keeps
  (cfg : Config) (l : nat) (d : Dict) (cats : list string) :
  keeps scrape_alibaba_ref l d -> keeps scrape_1688_ref l d ->
  forall (t : Z * Z) (st : State (W * Store)),
  nth_error (store_of st) l = Some d ->
  nth_error (store_of (snd (categories_ref cfg cats t st))) l = Some d.
Proof.
  intros Ha Hb. induction cats as [| sub cats IH]; intros t st Hd;
    cbn [for_subcategory_ref].
  - exact Hd.
  - unfold bind at 1. unfold print at 1.
    set (st0 := {| world := world st;
                   stdout := stdout st ++ [Log_processing sub];
                   post_calls := post_calls st |}).
    assert (Hd0 : nth_error (store_of st0) l = Some d) by exact Hd.
    unfold bind at 1. pose proof (Ha sub st0 Hd0) as Hd1.
    destruct (scrape_alibaba_ref sub st0) as [[la | e] st1]; cbn [snd] in Hd1;
      [| exact Hd1].
    unfold bind at 1. pose proof (Hb sub st1 Hd1) as Hd2.
    destruct (scrape_1688_ref sub st1) as [[lb | e] st2]; cbn [snd] in Hd2;
      [| exact Hd2].
    unfold bind at 1.
    pose proof (for_product_ref_store cfg (la ++ lb) t st2) as Hloop.
    destruct (loop_ref cfg (la ++ lb) t st2) as [[t' | e] st3];
      cbn [snd] in Hloop; rewrite <- Hloop in Hd2; [| exact Hd2].
    now apply IH.
Qed.


End Shared_properties.

